(** * MicRosterScraper: the roster scraper of [mic_roster_selenium.py]

    A shallow embedding of the module's functions ([make_soup],
    [get_view_event], [login], [fetch_next_page_html],
    [process_response_cal], [main]) and the properties of the
    specification that can be stated over them.

    Modelling choices.
    - Python exceptions: a [result] type, [Ok v] or [Raise e].
    - bs4: a parsed document is a tree of [PageElement]s (tags and text
      nodes; comments and declarations, which [find] never returns and
      [get_text] leaves out, are not represented).  A [Tag] is always true
      in a test, so [if tag:] asks whether [find] found one.  The HTML
      parser itself belongs to bs4; it is a parameter [html_parser] of the
      development.  It gives the document of a string or raises: bs4 raises
      [ParserRejectedMarkup] on the markup that html.parser rejects.  A
      parser that accepts every string is [accepting p].
    - Selenium: the browser is an abstract state driven through a record of
      operations ([WebDriver]); each operation may raise.
    - [print]: the lines written to standard output are collected in order;
      a line keeps its fields and [render] gives its text.
    - Strings are [string]s of characters with code points below 256. *)

From Stdlib Require Import String Ascii DecimalString Decimal Sorted.
From stdpp Require Import base option list gmap strings.

Set Warnings "-register-all".

(** ** Exceptions *)

Inductive exn :=
| AttributeError
| TypeError
| TimeoutException
| NoSuchElementException
| WebDriverException
| ParserRejectedMarkup.

Inductive result (A : Type) :=
| Ok (v : A)
| Raise (e : exn).
Arguments Ok {A} v.
Arguments Raise {A} e.

Definition exn_eqb (a b : exn) : bool :=
  match a, b with
  | AttributeError, AttributeError
  | TypeError, TypeError
  | TimeoutException, TimeoutException
  | NoSuchElementException, NoSuchElementException
  | WebDriverException, WebDriverException
  | ParserRejectedMarkup, ParserRejectedMarkup => true
  | _, _ => false
  end.

Definition rbind {A B} (c : result A) (k : A -> result B) : result B :=
  match c with
  | Ok v => k v
  | Raise e => Raise e
  end.

(** [try: c except e: h] *)
Definition try_except {A} (c : result A) (e : exn) (h : result A) : result A :=
  match c with
  | Ok v => Ok v
  | Raise e' => if exn_eqb e' e then h else Raise e'
  end.

(** ** Python strings *)

Module PyStr.

(** [str(n)] for a non-negative [int]. *)
Definition of_nat (n : nat) : string :=
  NilEmpty.string_of_uint (Nat.to_uint n).

(** [c.isspace()], which decides what [str.strip()] removes, for the
    code points below 256: tab to carriage return, the four separators,
    the space, NEL and the no-break space. *)
Definition isspace (c : ascii) : bool :=
  let n := nat_of_ascii c in
  (((9 <=? n) && (n <=? 13)) || ((28 <=? n) && (n <=? 32))
   || (n =? 133) || (n =? 160))%nat.

Fixpoint lstrip (s : string) : string :=
  match s with
  | EmptyString => EmptyString
  | String c s' => if isspace c then lstrip s' else s
  end.

Fixpoint rstrip (s : string) : string :=
  match s with
  | EmptyString => EmptyString
  | String c s' =>
      match rstrip s' with
      | EmptyString => if isspace c then EmptyString else String c EmptyString
      | r => String c r
      end
  end.

Definition strip (s : string) : string := rstrip (lstrip s).

(** [c in s] for a one-character [c]. *)
Fixpoint contains (c : ascii) (s : string) : bool :=
  match s with
  | EmptyString => false
  | String a s' => if Ascii.eqb a c then true else contains c s'
  end.

(** [s.replace(old, new)] for a one-character [old]: every occurrence,
    left to right. *)
Fixpoint replace (old : ascii) (new : string) (s : string) : string :=
  match s with
  | EmptyString => EmptyString
  | String a s' =>
      if Ascii.eqb a old then new +:+ replace old new s'
      else String a (replace old new s')
  end.

(** Truth value of a [str]: non-empty. *)
Definition truthy (s : string) : bool :=
  match s with
  | EmptyString => false
  | String _ _ => true
  end.

Fixpoint concat (l : list string) : string :=
  match l with
  | [] => EmptyString
  | s :: l' => s +:+ concat l'
  end.

End PyStr.

(** ** bs4 documents *)

Inductive PageElement :=
| Tag (name : string) (attrs : list (string * string))
      (contents : list PageElement)
| NavigableString (s : string).

Module Bs4.

(** [tag.get(key)]: the attribute, or [None]. *)
Fixpoint get (attrs : list (string * string)) (key : string)
  : option string :=
  match attrs with
  | [] => None
  | (k, v) :: attrs' => if String.eqb k key then Some v else get attrs' key
  end.

Fixpoint self_and_descendants (e : PageElement) : list PageElement :=
  e :: match e with
       | Tag _ _ cs =>
           (fix each (l : list PageElement) : list PageElement :=
              match l with
              | [] => []
              | c :: l' => self_and_descendants c ++ each l'
              end) cs
       | NavigableString _ => []
       end.

(** [tag.descendants]: document order, the tag itself excluded. *)
Definition descendants (e : PageElement) : list PageElement :=
  match self_and_descendants e with
  | [] => []
  | _ :: ds => ds
  end.

Definition has_attrs (attrs want : list (string * string)) : bool :=
  forallb (fun kv =>
             match get attrs (fst kv) with
             | Some v => String.eqb v (snd kv)
             | None => false
             end) want.

Definition matches (name : string) (want : list (string * string))
           (e : PageElement) : bool :=
  match e with
  | Tag n attrs _ => String.eqb n name && has_attrs attrs want
  | NavigableString _ => false
  end.

(** [tag.find(name, attrs)]: the first matching tag below [e]. *)
Definition find (e : PageElement) (name : string)
           (want : list (string * string)) : option PageElement :=
  List.find (matches name want) (descendants e).

(** [tag.get_text(strip=True)]: the text nodes below [e], each stripped,
    the empty ones dropped, joined with nothing between them. *)
Definition get_text_strip (e : PageElement) : string :=
  PyStr.concat
    (omap (fun d =>
             match d with
             | NavigableString s =>
                 let t := PyStr.strip s in
                 if PyStr.truthy t then Some t else None
             | Tag _ _ _ => None
             end) (descendants e)).

(** [tag.get(key)] on an element. *)
Definition tag_get (e : PageElement) (key : string) : option string :=
  match e with
  | Tag _ attrs _ => get attrs key
  | NavigableString _ => None
  end.

End Bs4.

(** ** Standard output *)

(** A line written by [print]: the month heading line of a page, or the
    line of one shift (one day of the month). *)
Inductive line :=
| MonthHeadingLine (month : string)
| ShiftLine (date : nat) (month : option string) (cell_text : string).

(** [f"{month}"] where [month] is a [str] or [None]. *)
Definition fmt_month (month : option string) : string :=
  match month with
  | Some m => m
  | None => "None"
  end.

(** The [d] of the shift line: two digits below ten. *)
Definition fmt_date (date : nat) : string :=
  if (date <? 10)%nat then "0" +:+ PyStr.of_nat date else PyStr.of_nat date.

Definition render (l : line) : string :=
  match l with
  | MonthHeadingLine month => "Month Heading: " +:+ month
  | ShiftLine date month cell_text =>
      fmt_date date +:+ " " +:+ fmt_month month +:+ ":  Shift: " +:+ cell_text
  end.

(** The day numbers of the shift lines of an output, in order. *)
Definition shift_dates (out : list line) : list nat :=
  omap (fun l => match l with
                 | ShiftLine date _ _ => Some date
                 | MonthHeadingLine _ => None
                 end) out.

Definition is_shift (l : line) : bool :=
  match l with
  | ShiftLine _ _ _ => true
  | MonthHeadingLine _ => false
  end.

(** The shift lines of an output, in order. *)
Definition shift_lines (out : list line) : list line :=
  List.filter is_shift out.

(** ** The argument of [make_soup] and [process_response_cal] *)

(** Either an object with a [.text] attribute (a [requests] response) or a
    [str] (what [driver.page_source] returns), which has none. *)
Inductive response (Html : Type) :=
| Response (text : Html)
| Str (s : Html).
Arguments Response {Html} text.
Arguments Str {Html} s.

Notation "'do' x <- c ; k" := (rbind c (fun x => k))
  (at level 10, x name, c at level 100, k at level 200).

(** [range(a, b)] *)
Definition range (a b : nat) : list nat := seq a (b - a).

(** The cells that [process_response_cal] looks up: [range(1, 40)]. *)
Definition cell_range : list nat := range 1 40.

Definition month_heading_id : string :=
  "ctl00_ContentPlaceHolder1_calendar_lblCurrentMonth".

(** [f"ctl00_ContentPlaceHolder1_calendar_DateCell{cell}"] *)
Definition cell_id (cell : nat) : string :=
  "ctl00_ContentPlaceHolder1_calendar_DateCell" +:+ PyStr.of_nat cell.

(** The local variables that the loop of [process_response_cal] updates,
    with the lines printed so far. *)
Record scan_state := {
  cell_data : gmap nat string;
  date : nat;
  printed : list line;
}.

(** The parser that accepts every markup and builds [p s] from [s]. *)
Definition accepting {Html} (p : Html -> PageElement)
  : Html -> result PageElement :=
  fun s => Ok (p s).

Section Scraper.

Context {Html : Type}.
(** [BeautifulSoup(s, 'html.parser')] on a [str]: the document, or the
    exception of the parser. *)
Variable html_parser : Html -> result PageElement.

(** [response.text] *)
Definition getattr_text (r : response Html) : result Html :=
  match r with
  | Response text => Ok text
  | Str _ => Raise AttributeError
  end.

(** [BeautifulSoup(markup, 'html.parser')]: a [str] is parsed, which may
    raise; an object that is not markup is refused. *)
Definition BeautifulSoup (markup : response Html) : result PageElement :=
  match markup with
  | Str s => html_parser s
  | Response _ => Raise TypeError
  end.

Definition make_soup (r : response Html) : result PageElement :=
  try_except
    (do text <- getattr_text r; BeautifulSoup (Str text))
    AttributeError
    (BeautifulSoup r).

(** [o.get(key)] where [o] is the result of a [find]: [None] has no
    [get]. *)
Definition find_result_get (o : option PageElement) (key : string)
  : result (option string) :=
  match o with
  | Some tag => Ok (Bs4.tag_get tag key)
  | None => Raise AttributeError
  end.

Definition get_view_event (soup : PageElement)
  : result (option string * option string) :=
  do v <- find_result_get
            (Bs4.find soup "input" [("name", "__VIEWSTATE")]) "value";
  do e <- find_result_get
            (Bs4.find soup "input" [("name", "__EVENTVALIDATION")]) "value";
  Ok (v, e).

(** [soup.find('td', id=cell_id)] *)
Definition find_cell (soup : PageElement) (cell : nat)
  : option PageElement :=
  Bs4.find soup "td" [("id", cell_id cell)].

(** Line 163: [cell_text.replace(")", ") ") if ")" in cell_text else
    cell_text]. *)
Definition normalize (cell_text : string) : string :=
  if PyStr.contains ")" cell_text
  then PyStr.replace ")" ") " cell_text
  else cell_text.

(** Lines 161 to 163: the text of a found cell. *)
Definition cell_text_of (cell_content : PageElement) : string :=
  let div_content := Bs4.find cell_content "div" [] in
  let cell_text :=
    match div_content with
    | Some d => Bs4.get_text_strip d
    | None => EmptyString
    end in
  normalize cell_text.

(** One iteration of [for cell in range(1, 40)]. *)
Definition cell_step (soup : PageElement) (month : option string)
           (st : scan_state) (cell : nat) : scan_state :=
  match find_cell soup cell with
  | Some cell_content =>
      let cell_text := cell_text_of cell_content in
      let cell_data' := <[date st := cell_text]> (cell_data st) in
      if PyStr.truthy cell_text
      then {| cell_data := cell_data';
              date := date st + 1;
              printed := printed st ++ [ShiftLine (date st) month cell_text] |}
      else {| cell_data := cell_data';
              date := date st;
              printed := printed st |}
  | None => st
  end.

Definition scan (soup : PageElement) (month : option string)
           (cells : list nat) (st : scan_state) : scan_state :=
  fold_left (cell_step soup month) cells st.

(** Lines 148 to 171, on the parsed document. *)
Definition process_soup (soup : PageElement) : scan_state :=
  let month_heading := Bs4.find soup "span" [("id", month_heading_id)] in
  let '(month, out) :=
    match month_heading with
    | Some h =>
        let month := Bs4.get_text_strip h in
        (Some month, [MonthHeadingLine month])
    | None => (None, [])
    end in
  scan soup month cell_range
       {| cell_data := ∅; date := 1; printed := out |}.

(** [process_response_cal(response)]: the function returns [None]; its
    result here is what it printed. *)
Definition process_response_cal (r : response Html)
  : result (list line) :=
  do soup <- make_soup r;
  Ok (printed (process_soup soup)).

End Scraper.

(** Documents given as their trees: the parser has nothing to do. *)
Definition tree_parser : PageElement -> PageElement := fun t => t.

(** ** Selenium and the run *)

Inductive By := NAME | ID.

(** The calls a run makes, in order: the driver's operations, [time.sleep]
    and [process_response_cal].  The trace is not a variable of the program:
    it records what the program did. *)
Inductive call (Html : Type) :=
| CallGet (url : string)
| CallWait (kind : By) (value : string)
| CallSendKeys (kind : By) (value : string) (keys : string)
| CallClick (kind : By) (value : string)
| CallPageSource
| CallSleep (secs : nat)
| CallProcess (r : response Html)
| CallQuit.
Arguments CallGet {Html} url.
Arguments CallWait {Html} kind value.
Arguments CallSendKeys {Html} kind value keys.
Arguments CallClick {Html} kind value.
Arguments CallPageSource {Html}.
Arguments CallSleep {Html} secs.
Arguments CallProcess {Html} r.
Arguments CallQuit {Html}.

(** The global [driver]: a browser in state [B] and what can be done to it.
    An operation gives the next state and either succeeds or raises.
    - [drv_wait kind value]: [WebDriverWait(driver, 10).until(
      EC.presence_of_element_located((kind, value)))], which raises
      [TimeoutException] when the element is not there after ten seconds;
    - [drv_send_keys], [drv_click]: [find_element_by_name] or
      [find_element_by_id], then the action on the element found;
    - [drv_elapse secs]: what [secs] seconds do to the page. *)
Record WebDriver (B Html : Type) := {
  drv_get : string -> B -> B * result unit;
  drv_wait : By -> string -> B -> B * result unit;
  drv_send_keys : By -> string -> string -> B -> B * result unit;
  drv_click : By -> string -> B -> B * result unit;
  drv_page_source : B -> Html;
  drv_elapse : nat -> B -> B;
  drv_quit : B -> B;
}.
Arguments drv_get {B Html} _ _ _.
Arguments drv_wait {B Html} _ _ _ _.
Arguments drv_send_keys {B Html} _ _ _ _ _.
Arguments drv_click {B Html} _ _ _ _.
Arguments drv_page_source {B Html} _ _.
Arguments drv_elapse {B Html} _ _ _.
Arguments drv_quit {B Html} _ _.

(** What a run changes: the browser, standard output, and the trace. *)
Record World (B Html : Type) := {
  browser : B;
  stdout : list line;
  calls : list (call Html);
}.
Arguments browser {B Html} _.
Arguments stdout {B Html} _.
Arguments calls {B Html} _.
Arguments Build_World {B Html} _ _ _.

Definition login_url : string :=
  "https://ess.tmc.tambla.net/Microster.SelfService/Default.aspx".
Definition roster_url : string :=
  "https://ess.tmc.tambla.net/Microster.SelfService/MyRoster2.aspx".

Definition txtPersonnelId : string := "ctl00$ContentPlaceHolder1$txtPersonnelId".
Definition txtPassword : string := "ctl00$ContentPlaceHolder1$txtPassword".
Definition btnLogin : string := "ctl00$ContentPlaceHolder1$btnLogin".
Definition lnkNextMonth : string :=
  "ctl00_ContentPlaceHolder1_calendar_lnkNextMonth".
Definition lnkPreviousMonth : string :=
  "ctl00_ContentPlaceHolder1_calendar_lnkPreviousMonth".

Section Run.

Context {B Html : Type}.
Variable html_parser : Html -> result PageElement.
Variable driver : WebDriver B Html.
(** [cr.credentials.username] and [cr.credentials.password]: the module
    [credentials] is not part of the repository. *)
Variables username password : string.

(** A computation of the run: from a world, a result or an exception, and
    the world it leaves. *)
Definition M (A : Type) : Type := World B Html -> result A * World B Html.

Definition ret {A} (v : A) : M A := fun w => (Ok v, w).

Definition bind {A C} (c : M A) (k : A -> M C) : M C :=
  fun w =>
    match c w with
    | (Ok v, w') => k v w'
    | (Raise e, w') => (Raise e, w')
    end.

Definition seq_ {A} (c : M unit) (k : M A) : M A := bind c (fun _ => k).

Definition record (c : call Html) (w : World B Html) : World B Html :=
  Build_World (browser w) (stdout w) (calls w ++ [c]).

(** A driver operation that may raise. *)
Definition driver_op (c : call Html) (op : B -> B * result unit) : M unit :=
  fun w =>
    let w1 := record c w in
    let '(b, r) := op (browser w1) in
    (r, Build_World b (stdout w1) (calls w1)).

Definition get (url : string) : M unit :=
  driver_op (CallGet url) (drv_get driver url).

Definition wait_presence (kind : By) (value : string) : M unit :=
  driver_op (CallWait kind value) (drv_wait driver kind value).

Definition send_keys (kind : By) (value keys : string) : M unit :=
  driver_op (CallSendKeys kind value keys)
            (drv_send_keys driver kind value keys).

Definition click (kind : By) (value : string) : M unit :=
  driver_op (CallClick kind value) (drv_click driver kind value).

Definition page_source : M Html :=
  fun w => (Ok (drv_page_source driver (browser w)), record CallPageSource w).

Definition sleep (secs : nat) : M unit :=
  fun w =>
    let w1 := record (CallSleep secs) w in
    (Ok tt, Build_World (drv_elapse driver secs (browser w1))
                        (stdout w1) (calls w1)).

Definition quit : M unit :=
  fun w =>
    let w1 := record CallQuit w in
    (Ok tt, Build_World (drv_quit driver (browser w1)) (stdout w1) (calls w1)).

Definition login (url : string) : M Html :=
  seq_ (get url)
 (seq_ (wait_presence NAME txtPersonnelId)
 (seq_ (send_keys NAME txtPersonnelId username)
 (seq_ (send_keys NAME txtPassword password)
 (seq_ (click NAME btnLogin)
 (seq_ (wait_presence ID lnkNextMonth)
        page_source))))).

Definition fetch_next_page_html (button_name : string) : M Html :=
  seq_ (click ID button_name)
 (seq_ (sleep 1)
        page_source).

(** [process_response_cal] as a step of the run: what it prints goes to
    standard output. *)
Definition process (r : response Html) : M unit :=
  fun w =>
    let w1 := record (CallProcess r) w in
    match process_response_cal html_parser r with
    | Ok out => (Ok tt, Build_World (browser w1) (stdout w1 ++ out) (calls w1))
    | Raise e => (Raise e, w1)
    end.

(** [for i in l: body(i)] *)
Fixpoint for_each {A} (l : list A) (body : A -> M unit) : M unit :=
  match l with
  | [] => ret tt
  | i :: l' => seq_ (body i) (for_each l' body)
  end.

(** The body of the loop of [main]. *)
Definition retreat_step (i : nat) : M unit :=
  bind (fetch_next_page_html lnkPreviousMonth) (fun html =>
  seq_ (process (Str html))
       (sleep 2)).

Definition main : M unit :=
  bind (login login_url) (fun html =>
  seq_ (process (Str html))
 (seq_ (sleep 1)
 (bind (fetch_next_page_html lnkNextMonth) (fun html =>
  seq_ (process (Str html))
 (seq_ (sleep 2)
 (seq_ (for_each (range 0 24) retreat_step)
        quit)))))).

End Run.

(** The arguments with which [process_response_cal] was called, in order. *)
Definition processed {Html} (cs : list (call Html)) : list (response Html) :=
  omap (fun c => match c with
                 | CallProcess r => Some r
                 | _ => None
                 end) cs.

(** Whether [driver.quit()] was called. *)
Definition released {Html} (cs : list (call Html)) : bool :=
  existsb (fun c => match c with
                    | CallQuit => true
                    | _ => false
                    end) cs.

(** ** What one call emits, stated apart from the loop *)

(** The month label of a page: the stripped text of the heading, when the
    heading is there. *)
Definition month_of (soup : PageElement) : option string :=
  option_map Bs4.get_text_strip
             (Bs4.find soup "span" [("id", month_heading_id)]).

Definition heading_lines (soup : PageElement) : list line :=
  match month_of soup with
  | Some month => [MonthHeadingLine month]
  | None => []
  end.

(** The text of the cell at a grid position, when the cell is there. *)
Definition text_at (soup : PageElement) (cell : nat) : option string :=
  option_map cell_text_of (find_cell soup cell).

(** The text that a grid position contributes: the cell is there and its
    text is not empty. *)
Definition emitted_text (soup : PageElement) (cell : nat) : option string :=
  match text_at soup cell with
  | Some t => if PyStr.truthy t then Some t else None
  | None => None
  end.

(** Shift lines for [texts], numbered from [from] on. *)
Definition numbered (month : option string) (from : nat)
           (texts : list string) : list line :=
  zip_with (fun d t => ShiftLine d month t) (seq from (length texts)) texts.

(** ** A browser for examples *)

Module Calendar.

(** The browser shows page [pages n]; the next-month link goes to
    [n + 1], the previous-month link to [n - 1]. *)
Definition click_link (kind : By) (value : string) (n : nat) : nat :=
  match kind with
  | ID =>
      if String.eqb value lnkNextMonth then n + 1
      else if String.eqb value lnkPreviousMonth then n - 1
      else n
  | NAME => n
  end.

(** Every operation succeeds. *)
Definition driver (pages : nat -> PageElement)
  : WebDriver nat PageElement :=
  {| drv_get := fun _ n => (n, Ok tt);
     drv_wait := fun _ _ n => (n, Ok tt);
     drv_send_keys := fun _ _ _ n => (n, Ok tt);
     drv_click := fun kind value n => (click_link kind value n, Ok tt);
     drv_page_source := pages;
     drv_elapse := fun _ n => n;
     drv_quit := fun n => n |}.

(** The same, but the next-month link never shows after the login. *)
Definition no_landmark (pages : nat -> PageElement)
  : WebDriver nat PageElement :=
  {| drv_get := fun _ n => (n, Ok tt);
     drv_wait := fun kind value n =>
       match kind with
       | ID => (n, if String.eqb value lnkNextMonth
                   then Raise TimeoutException else Ok tt)
       | NAME => (n, Ok tt)
       end;
     drv_send_keys := fun _ _ _ n => (n, Ok tt);
     drv_click := fun kind value n => (click_link kind value n, Ok tt);
     drv_page_source := pages;
     drv_elapse := fun _ n => n;
     drv_quit := fun n => n |}.

Definition start (n : nat) : World nat PageElement :=
  Build_World n [] [].

End Calendar.

Module Examples.

Definition text_cell (cell : nat) (text : string) : PageElement :=
  Tag "td" [("id", cell_id cell)] [Tag "div" [] [NavigableString text]].

Definition heading (month : string) : PageElement :=
  Tag "span" [("id", month_heading_id)] [NavigableString month].

Definition document (body : list PageElement) : PageElement :=
  Tag "[document]" [] [Tag "html" [] [Tag "body" [] body]].

(** The document of an empty string. *)
Definition empty_document : PageElement := Tag "[document]" [] [].

(** A markup that html.parser rejects: bs4 raises [ParserRejectedMarkup]
    on it. *)
Definition rejected_markup : string := "<![UNKNOWN[]]>".

(** A parser on strings that rejects [rejected_markup]; every other string
    is taken here for an empty document. *)
Definition rejecting_parser (s : string) : result PageElement :=
  if String.eqb s rejected_markup then Raise ParserRejectedMarkup
  else Ok empty_document.

Definition january : PageElement :=
  document [heading " January 2024 ";
            Tag "table" [] [Tag "tr" []
              [Tag "td" [("id", cell_id 1)] [];
               text_cell 2 "D(7)N(8)";
               Tag "td" [("id", cell_id 3)]
                   [Tag "div" [] [NavigableString "  "]];
               text_cell 4 " OFF "]]].

(** A page with one shift and no month heading. *)
Definition no_heading : PageElement :=
  document [Tag "table" [] [Tag "tr" [] [text_cell 1 "D(7)"]]].

(** A page whose only cell is at grid position 42. *)
Definition only_cell_42 : PageElement :=
  document [heading "June 2024";
            Tag "table" [] [Tag "tr" [] [text_cell 42 "N"]]].

(** A grid of cells at the positions 1 to 31 except 5 and 17, the cell
    at position [c] holding the text [S] followed by [c]. *)
Definition grid_31 : PageElement :=
  document [heading "March 2024";
            Tag "table" []
                (map (fun c => text_cell c ("S" +:+ PyStr.of_nat c))
                     (List.filter (fun c => negb (Nat.eqb c 5 || Nat.eqb c 17))
                                  (seq 1 31)))].

(** A calendar in which every page has a heading and one shift, except
    page 30, which has no heading. *)
Definition pages (n : nat) : PageElement :=
  if Nat.eqb n 30 then no_heading
  else document [heading ("M" +:+ PyStr.of_nat n); text_cell 1 "D"].

End Examples.

(** ** Notions used to state the properties *)

(** [s] without the character that follows each [c]. *)
Fixpoint drop_after (c : ascii) (s : string) : string :=
  match s with
  | EmptyString => EmptyString
  | String a s' =>
      if Ascii.eqb a c
      then String a match s' with
                    | EmptyString => EmptyString
                    | String _ s'' => drop_after c s''
                    end
      else String a (drop_after c s')
  end.

(** The number of occurrences of [c] in [s]. *)
Fixpoint count_char (c : ascii) (s : string) : nat :=
  match s with
  | EmptyString => 0
  | String a s' => (if Ascii.eqb a c then 1 else 0) + count_char c s'
  end.

(** The grid positions 1 to 31 without 5 and 17. *)
Definition positions_without_5_17 : list nat :=
  List.filter (fun c => negb (Nat.eqb c 5 || Nat.eqb c 17)) (seq 1 31).

(** The same positions, as a test on a position. *)
Definition keep_without_5_17 (c : nat) : bool :=
  negb (Nat.eqb c 5 || Nat.eqb c 17) && (c <=? 31).

(** A channel on which every operation succeeds, whatever the state of the
    browser. *)
Definition flawless {B Html} (d : WebDriver B Html) : Prop :=
  (forall url b, snd (drv_get d url b) = Ok tt)
  /\ (forall kind value b, snd (drv_wait d kind value b) = Ok tt)
  /\ (forall kind value keys b,
         snd (drv_send_keys d kind value keys b) = Ok tt)
  /\ (forall kind value b, snd (drv_click d kind value b) = Ok tt).

(** The pages a run visits when nothing raises, read off the driver alone:
    the states the browser goes through and the documents it shows when
    [page_source] is read. *)
Section Visits.

Context {B Html : Type}.
Variable html_parser : Html -> PageElement.
Variable driver : WebDriver B Html.
Variables username password : string.

(** The browser once the steps of [login] are done. *)
Definition after_login (b : B) : B :=
  let b := fst (drv_get driver login_url b) in
  let b := fst (drv_wait driver NAME txtPersonnelId b) in
  let b := fst (drv_send_keys driver NAME txtPersonnelId username b) in
  let b := fst (drv_send_keys driver NAME txtPassword password b) in
  let b := fst (drv_click driver NAME btnLogin b) in
  fst (drv_wait driver ID lnkNextMonth b).

(** The browser when [fetch_next_page_html] reads the page. *)
Definition after_click (button_name : string) (b : B) : B :=
  drv_elapse driver 1 (fst (drv_click driver ID button_name b)).

(** The pages read by [n] turns of the loop of [main]. *)
Fixpoint retreat_pages (n : nat) (b : B) : list Html :=
  match n with
  | 0 => []
  | S n' =>
      let b1 := after_click lnkPreviousMonth b in
      drv_page_source driver b1 :: retreat_pages n' (drv_elapse driver 2 b1)
  end.

(** The browser after [n] turns of the loop. *)
Fixpoint retreat_end (n : nat) (b : B) : B :=
  match n with
  | 0 => b
  | S n' =>
      retreat_end n' (drv_elapse driver 2 (after_click lnkPreviousMonth b))
  end.

(** The calls of [n] turns of the loop. *)
Fixpoint retreat_trace (n : nat) (b : B) : list (call Html) :=
  match n with
  | 0 => []
  | S n' =>
      let b1 := after_click lnkPreviousMonth b in
      [CallClick ID lnkPreviousMonth; CallSleep 1; CallPageSource;
       CallProcess (Str (drv_page_source driver b1)); CallSleep 2]
      ++ retreat_trace n' (drv_elapse driver 2 b1)
  end.

(** The browser when the page of the following month is read. *)
Definition at_next_month (b : B) : B :=
  after_click lnkNextMonth (drv_elapse driver 1 (after_login b)).

(** The pages of a whole run, in the order of the visit: the current
    month, the following month, then the months before, one by one. *)
Definition visited_pages (b : B) : list Html :=
  drv_page_source driver (after_login b)
  :: drv_page_source driver (at_next_month b)
  :: retreat_pages 24 (drv_elapse driver 2 (at_next_month b)).

(** What the pages print, page after page. *)
Definition pages_output (pages : list Html) : list line :=
  concat (map (fun p => printed (process_soup (html_parser p))) pages).

(** The calls of [login], up to and including the wait for the next-month
    link. *)
Definition login_trace : list (call Html) :=
  [CallGet login_url;
   CallWait NAME txtPersonnelId;
   CallSendKeys NAME txtPersonnelId username;
   CallSendKeys NAME txtPassword password;
   CallClick NAME btnLogin;
   CallWait ID lnkNextMonth].

(** The calls of a whole run on which nothing raises. *)
Definition run_trace (b : B) : list (call Html) :=
  login_trace
  ++ [CallPageSource;
      CallProcess (Str (drv_page_source driver (after_login b)));
      CallSleep 1;
      CallClick ID lnkNextMonth; CallSleep 1; CallPageSource;
      CallProcess (Str (drv_page_source driver (at_next_month b)));
      CallSleep 2]
  ++ retreat_trace 24 (drv_elapse driver 2 (at_next_month b))
  ++ [CallQuit].

(** The steps of [login] before the wait for the next-month link
    succeed. *)
Definition login_form_works : Prop :=
  (forall b, snd (drv_get driver login_url b) = Ok tt)
  /\ (forall b, snd (drv_wait driver NAME txtPersonnelId b) = Ok tt)
  /\ (forall value keys b,
         snd (drv_send_keys driver NAME value keys b) = Ok tt)
  /\ (forall b, snd (drv_click driver NAME btnLogin b) = Ok tt).

(** The next-month link is never there when [login] waits for it. *)
Definition landmark_times_out : Prop :=
  forall b, snd (drv_wait driver ID lnkNextMonth b) = Raise TimeoutException.

End Visits.

(** The extractions made on a page without month heading. *)
Definition on_page_without_heading (rs : list (response PageElement))
  : list (response PageElement) :=
  List.filter (fun r => match r with
                        | Str p | Response p =>
                            match month_of p with
                            | Some _ => false
                            | None => true
                            end
                        end) rs.

(** The shift lines labelled [None]. *)
Definition lines_without_month (out : list line) : list line :=
  List.filter (fun l => match l with
                        | ShiftLine _ None _ => true
                        | _ => false
                        end) out.

(** The controls clicked by a run, in order. *)
Definition clicks {Html} (cs : list (call Html)) : list (By * string) :=
  omap (fun c => match c with
                 | CallClick kind value => Some (kind, value)
                 | _ => None
                 end) cs.

(** The seconds a run spent in [time.sleep]. *)
Definition slept {Html} (cs : list (call Html)) : nat :=
  foldr (fun c n => match c with
                    | CallSleep secs => secs + n
                    | _ => n
                    end) 0 cs.

(** The text typed by a run into the fields of the page, in order. *)
Definition typed {Html} (cs : list (call Html)) : list string :=
  omap (fun c => match c with
                 | CallSendKeys _ _ keys => Some keys
                 | _ => None
                 end) cs.

(** The outcome of a computation tells whether the driver was released:
    released when it returns, not released when it raises. *)
Definition release_follows_outcome {A B Html}
           (x : result A * World B Html) : Prop :=
  released (calls (snd x))
  = match fst x with
    | Ok _ => true
    | Raise _ => false
    end.

(** On this browser the previous-month link brings back the page that was
    shown before the next-month link was clicked (with the pauses of [main]
    in between). *)
Definition previous_undoes_next {B Html} (d : WebDriver B Html) : Prop :=
  forall b,
    drv_page_source d
      (drv_elapse d 1
         (fst (drv_click d ID lnkPreviousMonth
            (drv_elapse d 2
               (drv_elapse d 1
                  (fst (drv_click d ID lnkNextMonth (drv_elapse d 1 b))))))))
    = drv_page_source d b.

(** A calendar on which chosen waits and clicks raise: [wait_fault] and
    [click_fault] give, for a locator and the page shown, the exception to
    raise, if any. *)
Definition faulty_calendar
           (wait_fault click_fault : By -> string -> nat -> option exn)
           (pages : nat -> PageElement) : WebDriver nat PageElement :=
  {| drv_get := fun _ n => (n, Ok tt);
     drv_wait := fun kind value n =>
       (n, match wait_fault kind value n with
           | Some e => Raise e
           | None => Ok tt
           end);
     drv_send_keys := fun _ _ _ n => (n, Ok tt);
     drv_click := fun kind value n =>
       match click_fault kind value n with
       | Some e => (n, Raise e)
       | None => (Calendar.click_link kind value n, Ok tt)
       end;
     drv_page_source := pages;
     drv_elapse := fun _ n => n;
     drv_quit := fun n => n |}.

(** No fault. *)
Definition no_fault (kind : By) (value : string) (n : nat) : option exn :=
  None.

(** The previous-month link is missing on page 0. *)
Definition no_previous_on_page_0 (kind : By) (value : string) (n : nat)
  : option exn :=
  match kind, n with
  | ID, 0 => if String.eqb value lnkPreviousMonth
             then Some NoSuchElementException else None
  | _, _ => None
  end.

(** The login page never shows its personnel-id field. *)
Definition no_login_field (kind : By) (value : string) (n : nat)
  : option exn :=
  match kind with
  | NAME => if String.eqb value txtPersonnelId
            then Some TimeoutException else None
  | ID => None
  end.

(** * Properties *)

(** ** Running examples *)

Example january_output :
  process_response_cal (accepting tree_parser) (Str Examples.january)
  = Ok [MonthHeadingLine "January 2024";
        ShiftLine 1 (Some "January 2024") "D(7) N(8) ";
        ShiftLine 2 (Some "January 2024") "OFF"].
Proof. vm_compute. reflexivity. Qed.

Example january_rendered :
  map render (printed (process_soup Examples.january))
  = ["Month Heading: January 2024";
     "01 January 2024:  Shift: D(7) N(8) ";
     "02 January 2024:  Shift: OFF"].
Proof. vm_compute. reflexivity. Qed.

Example fmt_date_12 : fmt_date 12 = "12".
Proof. reflexivity. Qed.

(** ** The loop of [process_response_cal] *)

Section ScanFacts.

Variable soup : PageElement.
Variable month : option string.

Lemma cell_step_emits st cell t :
  emitted_text soup cell = Some t ->
  printed (cell_step soup month st cell)
    = printed st ++ [ShiftLine (date st) month t]
  /\ date (cell_step soup month st cell) = date st + 1.
Proof.
  unfold emitted_text, text_at, cell_step.
  destruct (find_cell soup cell) as [cc|]; simpl; [|discriminate].
  destruct (PyStr.truthy (cell_text_of cc)) eqn:E; [|discriminate].
  intros [= <-]. simpl. split; reflexivity.
Qed.

Lemma cell_step_silent st cell :
  emitted_text soup cell = None ->
  printed (cell_step soup month st cell) = printed st
  /\ date (cell_step soup month st cell) = date st.
Proof.
  unfold emitted_text, text_at, cell_step.
  destruct (find_cell soup cell) as [cc|]; simpl; [|split; reflexivity].
  destruct (PyStr.truthy (cell_text_of cc)) eqn:E; [discriminate|].
  intros _. simpl. split; reflexivity.
Qed.

Lemma numbered_cons from t texts :
  numbered month from (t :: texts)
  = ShiftLine from month t :: numbered month (S from) texts.
Proof. reflexivity. Qed.

(** The loop prints one shift line for every position that contributes a
    text, numbered from the counter on, and advances the counter by their
    number. *)
Lemma scan_spec cells : forall st,
  printed (scan soup month cells st)
    = printed st ++ numbered month (date st) (omap (emitted_text soup) cells)
  /\ date (scan soup month cells st)
     = date st + length (omap (emitted_text soup) cells).
Proof.
  induction cells as [|cell cells IH]; intros st; simpl.
  - unfold numbered. simpl. rewrite app_nil_r. split; [reflexivity | lia].
  - unfold scan in *. simpl.
    destruct (IH (cell_step soup month st cell)) as [IHp IHd].
    rewrite IHp, IHd.
    destruct (emitted_text soup cell) as [t|] eqn:E.
    + destruct (cell_step_emits st cell t E) as [-> ->].
      rewrite numbered_cons, <- app_assoc. simpl.
      replace (date st + 1) with (S (date st)) by lia.
      split; [reflexivity | rewrite Nat.add_succ_r; reflexivity].
    + destruct (cell_step_silent st cell E) as [-> ->].
      split; reflexivity.
Qed.

End ScanFacts.

Lemma process_soup_printed soup :
  printed (process_soup soup)
  = heading_lines soup
    ++ numbered (month_of soup) 1 (omap (emitted_text soup) cell_range).
Proof.
  unfold process_soup, heading_lines, month_of.
  destruct (Bs4.find soup "span" [("id", month_heading_id)]) as [h|];
    cbv beta iota zeta; unfold option_map;
    match goal with
    | |- printed (scan ?s ?m ?cs ?st) = _ =>
        rewrite (proj1 (scan_spec s m cs st))
    end; reflexivity.
Qed.

Lemma shift_dates_app a b : shift_dates (a ++ b) = shift_dates a ++ shift_dates b.
Proof. unfold shift_dates. apply omap_app. Qed.

Lemma shift_dates_heading soup : shift_dates (heading_lines soup) = [].
Proof. unfold heading_lines. destruct (month_of soup); reflexivity. Qed.

Lemma shift_dates_numbered month texts : forall from,
  shift_dates (numbered month from texts) = seq from (length texts).
Proof.
  induction texts as [|t texts IH]; intros from; [reflexivity|].
  rewrite numbered_cons. simpl. f_equal. apply IH.
Qed.

Lemma shift_lines_app a b : shift_lines (a ++ b) = shift_lines a ++ shift_lines b.
Proof. unfold shift_lines. apply List.filter_app. Qed.

Lemma shift_lines_heading soup : shift_lines (heading_lines soup) = [].
Proof. unfold heading_lines. destruct (month_of soup); reflexivity. Qed.

Lemma shift_lines_numbered month texts : forall from,
  shift_lines (numbered month from texts) = numbered month from texts.
Proof.
  induction texts as [|t texts IH]; intros from; [reflexivity|].
  rewrite numbered_cons. unfold shift_lines in *. simpl. f_equal. apply IH.
Qed.

Lemma length_numbered month texts : forall from,
  length (numbered month from texts) = length texts.
Proof.
  induction texts as [|t texts IH]; intros from; [reflexivity|].
  rewrite numbered_cons. simpl. f_equal. apply IH.
Qed.

(** [make_soup] returns a document for both shapes of its argument. *)
Lemma make_soup_total {Html} (html_parser : Html -> PageElement) r :
  make_soup (accepting html_parser) r
  = Ok (html_parser match r with Response text => text | Str s => s end).
Proof. destruct r; reflexivity. Qed.

Lemma process_response_cal_ok {Html} (html_parser : Html -> result PageElement) r soup :
  make_soup html_parser r = Ok soup ->
  process_response_cal html_parser r = Ok (printed (process_soup soup)).
Proof. intros H. unfold process_response_cal. rewrite H. reflexivity. Qed.

Lemma process_response_cal_Str {Html} (html_parser : Html -> PageElement) s :
  process_response_cal (accepting html_parser) (Str s)
  = Ok (printed (process_soup (html_parser s))).
Proof. apply process_response_cal_ok. reflexivity. Qed.

(** ** [make_soup] *)

(** When the parser raises, so does [process_response_cal], before it
    prints anything. *)
Lemma process_response_cal_raise {Html}
      (html_parser : Html -> result PageElement) r e :
  make_soup html_parser r = Raise e ->
  process_response_cal html_parser r = Raise e.
Proof. intros H. unfold process_response_cal. rewrite H. reflexivity. Qed.

(** C10, as the code has it.  [make_soup] takes both shapes of argument
    to the parser.  A [str] has no [.text]: the [AttributeError] is caught
    and the string itself is parsed, so the result is that of the parser,
    the document or the exception it raises.  For an object with a [.text]
    attribute that text is parsed: the result is the document when the
    parser returns one, and the exception of the parser when it raises,
    since only [AttributeError] is caught (an [AttributeError] raised while
    the text is parsed leads to the second call, on the object itself,
    which is refused). *)
Theorem make_soup_both_shapes {Html}
        (html_parser : Html -> result PageElement) :
  (forall s, getattr_text (Str s) = Raise AttributeError
             /\ make_soup html_parser (Str s) = html_parser s)
  /\ (forall text,
        make_soup html_parser (Response text)
        = match html_parser text with
          | Ok soup => Ok soup
          | Raise AttributeError => Raise TypeError
          | Raise e => Raise e
          end).
Proof.
  split.
  - intros s. split; reflexivity.
  - intros text. unfold make_soup, getattr_text, BeautifulSoup. simpl.
    destruct (html_parser text) as [soup|[]]; reflexivity.
Qed.

(** C10 fails as stated: on a markup that the parser rejects, both shapes
    of argument let the exception of the parser through. *)
Lemma make_soup_counterexample :
  make_soup Examples.rejecting_parser (Str Examples.rejected_markup)
  = Raise ParserRejectedMarkup
  /\ make_soup Examples.rejecting_parser (Response Examples.rejected_markup)
     = Raise ParserRejectedMarkup
  /\ process_response_cal Examples.rejecting_parser
       (Str Examples.rejected_markup)
     = Raise ParserRejectedMarkup.
Proof. repeat split. Qed.

(** ** [get_view_event] *)

Example get_view_event_both_fields :
  get_view_event
    (Examples.document
       [Tag "form" []
            [Tag "input" [("type", "hidden"); ("name", "__VIEWSTATE");
                          ("value", "dDwt")] [];
             Tag "input" [("type", "hidden"); ("name", "__EVENTVALIDATION")]
                 []]])
  = Ok (Some "dDwt", None).
Proof. reflexivity. Qed.

(** Whenever the [__VIEWSTATE] field is missing, the call raises. *)
Lemma get_view_event_missing_field soup :
  Bs4.find soup "input" [("name", "__VIEWSTATE")] = None ->
  get_view_event soup = Raise AttributeError.
Proof. intros H. unfold get_view_event. rewrite H. reflexivity. Qed.

(** C2. On the document of an empty input, which has no [__VIEWSTATE]
    field, [get_view_event] raises [AttributeError]: [find] returns [None]
    and [get] is called on it. *)
Theorem get_view_event_empty_raises :
  Bs4.find Examples.empty_document "input" [("name", "__VIEWSTATE")] = None
  /\ get_view_event Examples.empty_document = Raise AttributeError.
Proof. split; reflexivity. Qed.

(** ** Day numbers *)

(** Whatever the parser, the day numbers of an output are 1, 2, ..., k. *)
Lemma day_numbers_of_any_output {Html}
      (html_parser : Html -> result PageElement) r out :
  process_response_cal html_parser r = Ok out ->
  shift_dates out = seq 1 (length (shift_dates out)).
Proof.
  unfold process_response_cal.
  destruct (make_soup html_parser r) as [soup|e]; [|discriminate].
  intros [= <-].
  rewrite process_soup_printed, shift_dates_app, shift_dates_heading.
  rewrite app_nil_l, shift_dates_numbered, length_seq. reflexivity.
Qed.

Lemma shift_dates_process_soup soup :
  shift_dates (printed (process_soup soup))
  = seq 1 (length (omap (emitted_text soup) cell_range)).
Proof.
  rewrite process_soup_printed, shift_dates_app, shift_dates_heading.
  apply shift_dates_numbered.
Qed.

Lemma seq_strictly_sorted n : forall from,
  StronglySorted lt (seq from n).
Proof.
  induction n as [|n IH]; intros from; simpl; constructor.
  - apply IH.
  - apply Forall_forall. intros x Hx.
    apply list_elem_of_In, in_seq in Hx. lia.
Qed.

(** C6. Whatever the input, one call of [process_response_cal] returns
    (the parser accepting the markup), and the day numbers of the shift
    lines it emits are 1, 2, ..., k in this order: they start at 1, grow by
    exactly one from an entry to the next, are strictly increasing and never
    repeat. *)
Theorem day_numbers_sequential {Html} (html_parser : Html -> PageElement)
        (r : response Html) :
  exists out,
    process_response_cal (accepting html_parser) r = Ok out
    /\ shift_dates out = seq 1 (length (shift_dates out))
    /\ StronglySorted lt (shift_dates out)
    /\ NoDup (shift_dates out).
Proof.
  eexists. split.
  - apply process_response_cal_ok, make_soup_total.
  - rewrite shift_dates_process_soup, length_seq.
    split; [reflexivity|]. split.
    + apply seq_strictly_sorted.
    + apply NoDup_ListNoDup, List.seq_NoDup.
Qed.

(** ** A page without month heading *)

(** C1, as the code has it.  When the month heading is absent,
    [process_response_cal] raises nothing: the month is [None], no heading
    line is printed, and one shift line labelled [None] is emitted for every
    cell of the scanned range that is present with a non-empty text,
    numbered from 1. *)
Theorem no_heading_still_emits {Html} (html_parser : Html -> result PageElement)
        (r : response Html) (soup : PageElement) :
  make_soup html_parser r = Ok soup ->
  Bs4.find soup "span" [("id", month_heading_id)] = None ->
  process_response_cal html_parser r
  = Ok (numbered None 1 (omap (emitted_text soup) cell_range)).
Proof.
  intros Hsoup Hfind.
  rewrite (process_response_cal_ok _ _ _ Hsoup), process_soup_printed.
  unfold heading_lines, month_of. rewrite Hfind. reflexivity.
Qed.

Lemma no_heading_still_emits_witness :
  process_response_cal (accepting tree_parser) (Str Examples.no_heading)
  = Ok (numbered None 1 (omap (emitted_text Examples.no_heading) cell_range)).
Proof.
  apply (no_heading_still_emits (accepting tree_parser) (Str Examples.no_heading)
                                Examples.no_heading); reflexivity.
Defined.

(** C1 fails as stated: this page has no month heading, and the call
    returns normally after emitting a shift line. *)
Lemma no_heading_counterexample :
  Bs4.find Examples.no_heading "span" [("id", month_heading_id)] = None
  /\ process_response_cal (accepting tree_parser) (Str Examples.no_heading)
     = Ok [ShiftLine 1 None "D(7) "].
Proof. split; vm_compute; reflexivity. Qed.

(** ** The scanned range *)

(** C3, as the code has it.  The scanned grid positions are 1 to 39 in
    ascending order, the last one being 39, which is below 42; the shift
    lines of a page are those of the cells at these positions. *)
Theorem scanned_positions_1_to_39 :
  cell_range = seq 1 39
  /\ StronglySorted lt cell_range
  /\ last cell_range = Some 39
  /\ 39 < 42
  /\ (forall soup,
         shift_lines (printed (process_soup soup))
         = numbered (month_of soup) 1 (omap (emitted_text soup) (seq 1 39))).
Proof.
  split; [reflexivity|]. split; [apply seq_strictly_sorted|].
  split; [reflexivity|]. split; [lia|].
  intros soup.
  rewrite process_soup_printed, shift_lines_app, shift_lines_heading.
  apply shift_lines_numbered.
Qed.

(** C3 fails as stated: the last scanned position is 39, not above 42, and
    a cell at position 42 is not looked at. *)
Lemma scanned_range_counterexample :
  last cell_range = Some 39
  /\ ~ 42 < 39
  /\ text_at Examples.only_cell_42 42 = Some "N"
  /\ process_response_cal (accepting tree_parser) (Str Examples.only_cell_42)
     = Ok [MonthHeadingLine "June 2024"].
Proof.
  split; [reflexivity|]. split; [lia|]. split; vm_compute; reflexivity.
Qed.

(** ** Normalization of the shift text *)

Lemma replace_absent c new s :
  PyStr.contains c s = false -> PyStr.replace c new s = s.
Proof.
  induction s as [|a s IH]; simpl; [reflexivity|].
  destruct (Ascii.eqb a c); [discriminate|].
  intros H. rewrite (IH H). reflexivity.
Qed.

(** The test [")" in cell_text] changes nothing: [normalize] is the
    [replace]. *)
Lemma normalize_replace s : normalize s = PyStr.replace ")" ") " s.
Proof.
  unfold normalize. destruct (PyStr.contains ")" s) eqn:E; [reflexivity|].
  symmetry. apply replace_absent, E.
Qed.

Lemma replace_paren_cons a s :
  PyStr.replace ")" ") " (String a s)
  = if Ascii.eqb a ")"
    then String ")" (String " " (PyStr.replace ")" ") " s))
    else String a (PyStr.replace ")" ") " s).
Proof. simpl. destruct (Ascii.eqb a ")"); reflexivity. Qed.

Lemma replace_space_follows s : forall i,
  String.get i (PyStr.replace ")" ") " s) = Some ")"%char ->
  String.get (S i) (PyStr.replace ")" ") " s) = Some " "%char.
Proof.
  induction s as [|a s IH]; intros i; [simpl; discriminate|].
  rewrite replace_paren_cons.
  destruct (Ascii.eqb a ")") eqn:E.
  - destruct i as [|[|i]]; simpl.
    + reflexivity.
    + discriminate.
    + apply IH.
  - destruct i as [|i]; simpl.
    + intros [= ->]. discriminate.
    + apply IH.
Qed.

Lemma drop_after_replace s :
  drop_after ")" (PyStr.replace ")" ") " s) = s.
Proof.
  induction s as [|a s IH]; [reflexivity|].
  rewrite replace_paren_cons.
  destruct (Ascii.eqb a ")") eqn:E.
  - apply Ascii.eqb_eq in E. subst a. simpl. rewrite IH. reflexivity.
  - simpl. rewrite E, IH. reflexivity.
Qed.

Lemma length_replace s :
  String.length (PyStr.replace ")" ") " s)
  = String.length s + count_char ")" s.
Proof.
  induction s as [|a s IH]; [reflexivity|].
  rewrite replace_paren_cons.
  destruct (Ascii.eqb a ")") eqn:E; simpl; rewrite E, IH; simpl; lia.
Qed.

(** C7. For a shift text in which a [")"] is directly followed by another
    character, the normalized text has a space right after every [")"]:
    each [")"] of the output is followed by a space, taking away the
    character after each [")"] gives the input back, and the output is
    longer than the input by the number of [")"]. *)
Theorem normalize_space_after_paren (s pre : string) (c : ascii)
        (post : string) :
  s = pre +:+ String ")" (String c post) ->
  (forall i, String.get i (normalize s) = Some ")"%char ->
             String.get (S i) (normalize s) = Some " "%char)
  /\ drop_after ")" (normalize s) = s
  /\ String.length (normalize s) = String.length s + count_char ")" s.
Proof.
  intros _. rewrite normalize_replace.
  split; [apply replace_space_follows|].
  split; [apply drop_after_replace | apply length_replace].
Qed.

Lemma normalize_space_after_paren_witness :
  (forall i, String.get i (normalize "D(7)N(8)") = Some ")"%char ->
             String.get (S i) (normalize "D(7)N(8)") = Some " "%char)
  /\ drop_after ")" (normalize "D(7)N(8)") = "D(7)N(8)"
  /\ String.length (normalize "D(7)N(8)")
     = String.length "D(7)N(8)" + count_char ")" "D(7)N(8)".
Proof.
  apply (normalize_space_after_paren "D(7)N(8)" "D(7" "N" "(8)").
  reflexivity.
Defined.

Example normalize_example : normalize "D(7)N(8)" = "D(7) N(8) ".
Proof. reflexivity. Qed.

(** ** A grid with absent cells *)

Lemma omap_emitted_text soup (keep : nat -> bool) (txt : nat -> string) l :
  (forall c, c ∈ l ->
             emitted_text soup c = if keep c then Some (txt c) else None) ->
  omap (emitted_text soup) l = map txt (List.filter keep l).
Proof.
  induction l as [|c l IH]; intros H; [reflexivity|].
  assert (IH' : omap (emitted_text soup) l = map txt (List.filter keep l)).
  { apply IH. intros c' Hc'. apply H, list_elem_of_further, Hc'. }
  change (omap (emitted_text soup) (c :: l))
    with (match emitted_text soup c with
          | Some y => y :: omap (emitted_text soup) l
          | None => omap (emitted_text soup) l
          end).
  rewrite (H c) by apply list_elem_of_here.
  rewrite IH'. simpl. destruct (keep c); reflexivity.
Qed.

Lemma numbered_map month (txt : nat -> string) l : forall from,
  numbered month from (map txt l)
  = zip_with (fun d c => ShiftLine d month (txt c)) (seq from (length l)) l.
Proof.
  induction l as [|c l IH]; intros from; [reflexivity|].
  simpl. rewrite numbered_cons, IH. reflexivity.
Qed.

Lemma keep_positions c :
  c ∈ cell_range ->
  (keep_without_5_17 c = true <-> c ∈ positions_without_5_17).
Proof.
  intros Hc. apply list_elem_of_In, in_seq in Hc.
  unfold positions_without_5_17.
  rewrite list_elem_of_In, List.filter_In, in_seq.
  unfold keep_without_5_17.
  rewrite andb_true_iff, Nat.leb_le. intuition lia.
Qed.

Lemma filter_keep_cell_range :
  List.filter keep_without_5_17 cell_range = positions_without_5_17.
Proof. reflexivity. Qed.

Lemma emitted_text_grid soup :
  (forall c, c ∈ positions_without_5_17 ->
             exists t, text_at soup c = Some t /\ t <> EmptyString) ->
  (forall c, c ∈ cell_range -> c ∉ positions_without_5_17 ->
             find_cell soup c = None) ->
  omap (emitted_text soup) cell_range
  = map (fun c => default EmptyString (text_at soup c))
        positions_without_5_17.
Proof.
  intros Hpresent Habsent.
  rewrite <- filter_keep_cell_range.
  apply omap_emitted_text. intros c Hc.
  destruct (keep_without_5_17 c) eqn:K.
  - apply (keep_positions c Hc) in K.
    destruct (Hpresent c K) as (t & Ht & Hne).
    unfold emitted_text. rewrite Ht. simpl.
    destruct t; [congruence | reflexivity].
  - assert (Hn : c ∉ positions_without_5_17).
    { intros Hin. apply (keep_positions c Hc) in Hin. congruence. }
    unfold emitted_text, text_at. rewrite (Habsent c Hc Hn). reflexivity.
Qed.

Lemma positions_not_5_17 c :
  c ∈ positions_without_5_17 -> c <> 5 /\ c <> 17.
Proof.
  unfold positions_without_5_17.
  rewrite list_elem_of_In, List.filter_In.
  intros [_ H].
  apply negb_true_iff, orb_false_iff in H. destruct H as [H1 H2].
  apply Nat.eqb_neq in H1, H2. split; assumption.
Qed.

(** C8. For a document whose grid has a cell with a non-empty text at each
    of the positions 1 to 31 except 5 and 17, and no cell at any other
    scanned position, [process_response_cal] emits exactly 29 shift lines,
    numbered 1 to 29, and they carry, in order, the texts of the cells at
    the positions 1 to 31 without 5 and 17. *)
Theorem grid_without_5_17 {Html} (html_parser : Html -> result PageElement)
        (r : response Html) (soup : PageElement) :
  make_soup html_parser r = Ok soup ->
  (forall c, c ∈ positions_without_5_17 ->
             exists t, text_at soup c = Some t /\ t <> EmptyString) ->
  (forall c, c ∈ cell_range -> c ∉ positions_without_5_17 ->
             find_cell soup c = None) ->
  exists out,
    process_response_cal html_parser r = Ok out
    /\ length (shift_lines out) = 29
    /\ shift_dates out = seq 1 29
    /\ shift_lines out
       = zip_with (fun d c => ShiftLine d (month_of soup)
                                (default EmptyString (text_at soup c)))
                  (seq 1 29) positions_without_5_17
    /\ (5 ∉ positions_without_5_17)
    /\ (17 ∉ positions_without_5_17).
Proof.
  intros Hsoup Hpresent Habsent.
  pose proof (emitted_text_grid soup Hpresent Habsent) as Hem.
  assert (Hlines :
    shift_lines (printed (process_soup soup))
    = zip_with (fun d c => ShiftLine d (month_of soup)
                             (default EmptyString (text_at soup c)))
               (seq 1 29) positions_without_5_17).
  { rewrite process_soup_printed, shift_lines_app, shift_lines_heading.
    rewrite shift_lines_numbered, Hem, app_nil_l.
    apply numbered_map. }
  assert (Hdates : shift_dates (printed (process_soup soup)) = seq 1 29).
  { rewrite shift_dates_process_soup, Hem, length_map. reflexivity. }
  exists (printed (process_soup soup)).
  split; [exact (process_response_cal_ok _ _ _ Hsoup)|].
  split; [rewrite Hlines; reflexivity|].
  split; [exact Hdates|].
  split; [exact Hlines|].
  split; intros H; apply positions_not_5_17 in H; lia.
Qed.

Lemma grid_31_present :
  forall c, c ∈ positions_without_5_17 ->
            exists t, text_at Examples.grid_31 c = Some t /\ t <> EmptyString.
Proof.
  apply (proj1 (Forall_forall
    (fun c => exists t, text_at Examples.grid_31 c = Some t /\ t <> EmptyString)
    positions_without_5_17)).
  let l := eval vm_compute in positions_without_5_17 in
  change positions_without_5_17 with l.
  repeat (apply Forall_cons; split;
          [eexists; split; [vm_compute; reflexivity | discriminate]|]).
  apply Forall_nil_2.
Defined.

Lemma grid_31_absent :
  forall c, c ∈ cell_range -> c ∉ positions_without_5_17 ->
            find_cell Examples.grid_31 c = None.
Proof.
  apply (proj1 (Forall_forall
    (fun c => c ∉ positions_without_5_17 ->
              find_cell Examples.grid_31 c = None)
    cell_range)).
  let l := eval vm_compute in cell_range in change cell_range with l.
  repeat (apply Forall_cons; split;
          [intros Hn;
           first [ vm_compute; reflexivity
                 | exfalso; apply Hn;
                   apply (bool_decide_unpack _); vm_compute; exact I ]|]).
  apply Forall_nil_2.
Defined.

Lemma grid_without_5_17_witness :
  exists out,
    process_response_cal (accepting tree_parser) (Str Examples.grid_31) = Ok out
    /\ length (shift_lines out) = 29
    /\ shift_dates out = seq 1 29
    /\ shift_lines out
       = zip_with (fun d c => ShiftLine d (month_of Examples.grid_31)
                     (default EmptyString (text_at Examples.grid_31 c)))
                  (seq 1 29) positions_without_5_17
    /\ (5 ∉ positions_without_5_17)
    /\ (17 ∉ positions_without_5_17).
Proof.
  apply (grid_without_5_17 (accepting tree_parser) (Str Examples.grid_31)
                           Examples.grid_31).
  - reflexivity.
  - exact grid_31_present.
  - exact grid_31_absent.
Defined.

Example grid_31_first_lines :
  take 5 (map render (printed (process_soup Examples.grid_31)))
  = ["Month Heading: March 2024";
     "01 March 2024:  Shift: S1";
     "02 March 2024:  Shift: S2";
     "03 March 2024:  Shift: S3";
     "04 March 2024:  Shift: S4"].
Proof. vm_compute. reflexivity. Qed.

Example grid_31_last_line :
  last (map render (printed (process_soup Examples.grid_31)))
  = Some "29 March 2024:  Shift: S31".
Proof. vm_compute. reflexivity. Qed.

(** ** The run *)

Section RunFacts.

Context {B Html : Type}.
Variable html_parser : Html -> PageElement.
Variable driver : WebDriver B Html.
Variables username password : string.

Lemma bind_ok {A C} (c : @M B Html A) (k : A -> @M B Html C) w v w' :
  c w = (Ok v, w') -> bind c k w = k v w'.
Proof. intros H. unfold bind. rewrite H. reflexivity. Qed.

Lemma bind_raise {A C} (c : @M B Html A) (k : A -> @M B Html C) w e w' :
  c w = (Raise e, w') -> bind c k w = (Raise e, w').
Proof. intros H. unfold bind. rewrite H. reflexivity. Qed.

Lemma seq_ok {A} (c : @M B Html unit) (k : @M B Html A) w w' :
  c w = (Ok tt, w') -> seq_ c k w = k w'.
Proof. intros H. unfold seq_. rewrite (bind_ok _ _ _ _ _ H). reflexivity. Qed.

Lemma seq_raise {A} (c : @M B Html unit) (k : @M B Html A) w e w' :
  c w = (Raise e, w') -> seq_ c k w = (Raise e, w').
Proof. intros H. unfold seq_. apply bind_raise, H. Qed.

Lemma driver_op_result (c : call Html) (op : B -> B * result unit) b out cs :
  driver_op c op (Build_World b out cs)
  = (snd (op b), Build_World (fst (op b)) out (cs ++ [c])).
Proof.
  unfold driver_op, record. simpl. destruct (op b) as [b' r]. reflexivity.
Qed.

Lemma driver_op_ok (c : call Html) (op : B -> B * result unit) b out cs :
  snd (op b) = Ok tt ->
  driver_op c op (Build_World b out cs)
  = (Ok tt, Build_World (fst (op b)) out (cs ++ [c])).
Proof. intros H. rewrite driver_op_result, H. reflexivity. Qed.

Lemma driver_op_raise (c : call Html) (op : B -> B * result unit) b out cs e :
  snd (op b) = Raise e ->
  driver_op c op (Build_World b out cs)
  = (Raise e, Build_World (fst (op b)) out (cs ++ [c])).
Proof. intros H. rewrite driver_op_result, H. reflexivity. Qed.

Lemma page_source_result b out cs :
  page_source driver (Build_World b out cs)
  = (Ok (drv_page_source driver b),
     Build_World b out (cs ++ [CallPageSource])).
Proof. reflexivity. Qed.

Lemma sleep_result secs b out cs :
  sleep driver secs (Build_World b out cs)
  = (Ok tt, Build_World (drv_elapse driver secs b) out
                        (cs ++ [CallSleep secs])).
Proof. reflexivity. Qed.

Lemma quit_result b out cs :
  quit driver (Build_World b out cs)
  = (Ok tt, Build_World (drv_quit driver b) out (cs ++ [CallQuit])).
Proof. reflexivity. Qed.

(** One call of [process_response_cal] on a page source: it never
    raises, and what it prints is added to standard output. *)
Lemma process_result html (b : B) out cs :
  process (accepting html_parser) (Str html) (Build_World b out cs)
  = (Ok tt,
     Build_World b (out ++ printed (process_soup (html_parser html)))
                 (cs ++ [CallProcess (Str html)])).
Proof.
  unfold process. rewrite process_response_cal_Str. reflexivity.
Qed.

(** The steps of [login] up to the click on the login button. *)
Lemma login_form_steps (k : @M B Html Html) b out cs :
  login_form_works driver ->
  seq_ (get driver login_url)
 (seq_ (wait_presence driver NAME txtPersonnelId)
 (seq_ (send_keys driver NAME txtPersonnelId username)
 (seq_ (send_keys driver NAME txtPassword password)
 (seq_ (click driver NAME btnLogin) k)))) (Build_World b out cs)
  = k (Build_World
         (fst (drv_click driver NAME btnLogin
            (fst (drv_send_keys driver NAME txtPassword password
               (fst (drv_send_keys driver NAME txtPersonnelId username
                  (fst (drv_wait driver NAME txtPersonnelId
                     (fst (drv_get driver login_url b))))))))))
         out
         (cs ++ [CallGet login_url;
                 CallWait NAME txtPersonnelId;
                 CallSendKeys NAME txtPersonnelId username;
                 CallSendKeys NAME txtPassword password;
                 CallClick NAME btnLogin])).
Proof.
  intros (Hget & Hwait & Hkeys & Hclick).
  unfold get, wait_presence, send_keys, click.
  erewrite seq_ok by (apply driver_op_ok, Hget).
  erewrite seq_ok by (apply driver_op_ok, Hwait).
  erewrite seq_ok by (apply driver_op_ok, Hkeys).
  erewrite seq_ok by (apply driver_op_ok, Hkeys).
  erewrite seq_ok by (apply driver_op_ok, Hclick).
  rewrite <- !app_assoc. reflexivity.
Qed.

Lemma flawless_login_form : flawless driver -> login_form_works driver.
Proof.
  intros (Hget & Hwait & Hkeys & Hclick).
  repeat split; intros; auto.
Qed.

Lemma login_ok b out cs :
  flawless driver ->
  login driver username password login_url (Build_World b out cs)
  = (Ok (drv_page_source driver (after_login driver username password b)),
     Build_World (after_login driver username password b) out
                 (cs ++ login_trace username password ++ [CallPageSource])).
Proof.
  intros Hf. unfold login.
  rewrite (login_form_steps _ _ _ _ (flawless_login_form Hf)).
  destruct Hf as (_ & Hwait & _ & _).
  unfold wait_presence.
  erewrite seq_ok by (apply driver_op_ok, Hwait).
  rewrite page_source_result. unfold after_login, login_trace.
  rewrite <- !app_assoc. reflexivity.
Qed.

(** When the next-month link never shows, [login] raises
    [TimeoutException] after exactly the calls of [login_trace]. *)
Lemma login_times_out b out cs :
  login_form_works driver ->
  landmark_times_out driver ->
  login driver username password login_url (Build_World b out cs)
  = (Raise TimeoutException,
     Build_World (after_login driver username password b) out
                 (cs ++ login_trace username password)).
Proof.
  intros Hform Hland. unfold login.
  rewrite (login_form_steps _ _ _ _ Hform).
  unfold wait_presence.
  erewrite seq_raise by (apply driver_op_raise, Hland).
  unfold after_login, login_trace.
  rewrite <- !app_assoc. reflexivity.
Qed.

Lemma fetch_ok button_name b out cs :
  snd (drv_click driver ID button_name b) = Ok tt ->
  fetch_next_page_html driver button_name (Build_World b out cs)
  = (Ok (drv_page_source driver (after_click driver button_name b)),
     Build_World (after_click driver button_name b) out
                 (cs ++ [CallClick ID button_name; CallSleep 1;
                         CallPageSource])).
Proof.
  intros Hclick. unfold fetch_next_page_html, click.
  erewrite seq_ok by (apply driver_op_ok, Hclick).
  erewrite seq_ok by apply sleep_result.
  rewrite page_source_result. unfold after_click.
  rewrite <- !app_assoc. reflexivity.
Qed.

(** One turn of the loop of [main]: one click, one page read, one call of
    [process_response_cal], whatever the page holds. *)
Lemma retreat_step_ok i b out cs :
  snd (drv_click driver ID lnkPreviousMonth b) = Ok tt ->
  retreat_step (accepting html_parser) driver i (Build_World b out cs)
  = (Ok tt,
     Build_World
       (drv_elapse driver 2 (after_click driver lnkPreviousMonth b))
       (out ++ printed (process_soup (html_parser
          (drv_page_source driver (after_click driver lnkPreviousMonth b)))))
       (cs ++ [CallClick ID lnkPreviousMonth; CallSleep 1; CallPageSource;
               CallProcess (Str (drv_page_source driver
                  (after_click driver lnkPreviousMonth b)));
               CallSleep 2])).
Proof.
  intros Hclick. unfold retreat_step.
  erewrite bind_ok by (apply fetch_ok, Hclick).
  erewrite seq_ok by apply process_result.
  rewrite sleep_result, <- !app_assoc. reflexivity.
Qed.

End RunFacts.

Lemma processed_app {Html} (a b : list (call Html)) :
  processed (a ++ b) = processed a ++ processed b.
Proof. unfold processed. apply omap_app. Qed.

Lemma released_app {Html} (a b : list (call Html)) :
  released (a ++ b) = released a || released b.
Proof. unfold released. apply existsb_app. Qed.

Section LoopFacts.

Context {B Html : Type}.
Variable html_parser : Html -> PageElement.
Variable driver : WebDriver B Html.
Variables username password : string.
Hypothesis Hflawless : flawless driver.

Lemma click_ok button_name b :
  snd (drv_click driver ID button_name b) = Ok tt.
Proof. destruct Hflawless as (_ & _ & _ & Hclick). apply Hclick. Qed.

Lemma pages_output_cons p ps :
  pages_output html_parser (p :: ps)
  = printed (process_soup (html_parser p)) ++ pages_output html_parser ps.
Proof. reflexivity. Qed.

(** The loop of [main]: every turn succeeds, so all the pages are read,
    one call of [process_response_cal] each, in the order of the visit. *)
Lemma retreat_loop_ok (l : list nat) : forall b out cs,
  for_each l (retreat_step (accepting html_parser) driver) (Build_World b out cs)
  = (Ok tt,
     Build_World (retreat_end driver (length l) b)
       (out ++ pages_output html_parser (retreat_pages driver (length l) b))
       (cs ++ retreat_trace driver (length l) b)).
Proof.
  induction l as [|i l IH]; intros b out cs.
  - simpl. unfold ret, pages_output. simpl. rewrite !app_nil_r. reflexivity.
  - cbn [for_each length retreat_end retreat_pages retreat_trace].
    erewrite seq_ok by (apply retreat_step_ok, click_ok).
    rewrite IH, pages_output_cons, <- !app_assoc. reflexivity.
Qed.

Lemma processed_retreat_trace n : forall b,
  processed (retreat_trace driver n b) = map Str (retreat_pages driver n b).
Proof.
  induction n as [|n IH]; intros b; [reflexivity|].
  cbn [retreat_trace retreat_pages map].
  rewrite processed_app, IH. reflexivity.
Qed.

Lemma released_retreat_trace n : forall b,
  released (retreat_trace driver n b) = false.
Proof.
  induction n as [|n IH]; intros b; [reflexivity|].
  cbn [retreat_trace]. rewrite released_app, IH. reflexivity.
Qed.

Lemma length_retreat_pages n : forall b,
  length (retreat_pages driver n b) = n.
Proof.
  induction n as [|n IH]; intros b; [reflexivity|].
  cbn [retreat_pages length]. rewrite IH. reflexivity.
Qed.

Lemma processed_run_trace b :
  processed (run_trace driver username password b)
  = map Str (visited_pages driver username password b).
Proof.
  unfold run_trace, visited_pages.
  rewrite !processed_app, processed_retreat_trace. reflexivity.
Qed.

Lemma released_run_trace b :
  released (run_trace driver username password b) = true.
Proof.
  unfold run_trace.
  rewrite !released_app, released_retreat_trace. reflexivity.
Qed.


(** A whole run on a flawless channel. *)
Lemma main_ok b out cs :
  main (accepting html_parser) driver username password (Build_World b out cs)
  = (Ok tt,
     Build_World
       (drv_quit driver
          (retreat_end driver 24
             (drv_elapse driver 2
                (at_next_month driver username password b))))
       (out ++ pages_output html_parser
                 (visited_pages driver username password b))
       (cs ++ run_trace driver username password b)).
Proof.
  unfold main.
  erewrite bind_ok by (apply login_ok, Hflawless).
  erewrite seq_ok by apply process_result.
  erewrite seq_ok by apply sleep_result.
  erewrite bind_ok by (apply fetch_ok, click_ok).
  erewrite seq_ok by apply process_result.
  erewrite seq_ok by apply sleep_result.
  erewrite seq_ok by apply (retreat_loop_ok (range 0 24)).
  rewrite quit_result.
  change (length (range 0 24)) with 24.
  unfold visited_pages, run_trace, at_next_month.
  rewrite !pages_output_cons, <- !app_assoc. reflexivity.
Qed.

End LoopFacts.

(** ** Properties of the run *)


Lemma calendar_flawless pages : flawless (Calendar.driver pages).
Proof. repeat split. Defined.



(** C4, as the code has it.  When the next-month link never shows after
    the login, the run ends with [TimeoutException] after the calls of
    [login] up to that wait: nothing is extracted or printed, and
    [driver.quit()] is not called; the session is released only by a run
    that reaches the end of [main]. *)
Theorem landmark_timeout_no_release {B Html}
        (html_parser : Html -> result PageElement) (driver : WebDriver B Html)
        (username password : string) (w : World B Html) :
  login_form_works driver ->
  landmark_times_out driver ->
  exists w',
    main html_parser driver username password w = (Raise TimeoutException, w')
    /\ stdout w' = stdout w
    /\ calls w' = calls w ++ login_trace username password
    /\ processed (calls w') = processed (calls w)
    /\ released (calls w') = released (calls w).
Proof.
  intros Hform Hland. destruct w as [b out cs]. eexists.
  split.
  - unfold main. apply bind_raise, login_times_out; assumption.
  - cbn [calls stdout]. split; [reflexivity|]. split; [reflexivity|].
    rewrite processed_app, released_app. cbn.
    rewrite app_nil_r, orb_false_r. split; reflexivity.
Qed.

Lemma no_landmark_form_works pages :
  login_form_works (Calendar.no_landmark pages).
Proof. repeat split. Defined.

Lemma no_landmark_times_out pages :
  landmark_times_out (Calendar.no_landmark pages).
Proof. intros b. reflexivity. Defined.

Lemma landmark_timeout_no_release_witness :
  exists w',
    main (accepting tree_parser) (Calendar.no_landmark Examples.pages) "id" "secret"
         (Calendar.start 31) = (Raise TimeoutException, w')
    /\ stdout w' = stdout (Calendar.start 31)
    /\ calls w' = calls (Calendar.start 31) ++ login_trace "id" "secret"
    /\ processed (calls w') = processed (calls (Calendar.start 31))
    /\ released (calls w') = released (calls (Calendar.start 31)).
Proof.
  apply (landmark_timeout_no_release (accepting tree_parser)
           (Calendar.no_landmark Examples.pages) "id" "secret"
           (Calendar.start 31)).
  - apply no_landmark_form_works.
  - apply no_landmark_times_out.
Defined.

(** C4 fails as stated: the run ends with [TimeoutException] and the
    driver has not been released. *)
Lemma landmark_timeout_counterexample :
  fst (main (accepting tree_parser) (Calendar.no_landmark Examples.pages) "id" "secret"
            (Calendar.start 31)) = Raise TimeoutException
  /\ released (calls (snd
       (main (accepting tree_parser) (Calendar.no_landmark Examples.pages) "id" "secret"
             (Calendar.start 31)))) = false.
Proof. split; vm_compute; reflexivity. Qed.

(** The driver is released by a run that completes. *)
Lemma flawless_run_releases {B Html} (html_parser : Html -> PageElement)
      (driver : WebDriver B Html) (username password : string)
      (w : World B Html) :
  flawless driver ->
  released (calls (snd (main (accepting html_parser) driver username password w))) = true.
Proof.
  intros Hf. destruct w as [b out cs]. rewrite (main_ok html_parser driver username password Hf).
  cbn [snd calls]. rewrite released_app, released_run_trace.
  apply orb_true_r.
Qed.

(** C5, as the code has it.  The loop of [main] never extracts a page
    twice: on a flawless channel (no operation of the driver raises, the
    parser accepts every page) its 24 turns make 24 calls of
    [process_response_cal], one for each page in the order of the visit,
    whether the page has a month heading or not.  A page without heading
    is not left out: its shift lines are printed, labelled [None].  The
    loop goes through all its turns. *)
Theorem retreating_never_retries {B Html} (html_parser : Html -> PageElement)
        (driver : WebDriver B Html) (w : World B Html) :
  flawless driver ->
  exists w',
    for_each (range 0 24) (retreat_step (accepting html_parser) driver) w = (Ok tt, w')
    /\ processed (calls w')
       = processed (calls w)
         ++ map Str (retreat_pages driver 24 (browser w))
    /\ length (retreat_pages driver 24 (browser w)) = 24
    /\ stdout w'
       = stdout w
         ++ pages_output html_parser (retreat_pages driver 24 (browser w))
    /\ (forall p,
          month_of (html_parser p) = None ->
          printed (process_soup (html_parser p))
          = numbered None 1
              (omap (emitted_text (html_parser p)) cell_range)).
Proof.
  intros Hf. destruct w as [b out cs]. eexists.
  split; [apply (retreat_loop_ok html_parser driver Hf)|].
  change (length (range 0 24)) with 24. cbn [calls stdout browser].
  rewrite processed_app, processed_retreat_trace.
  split; [reflexivity|]. split; [apply length_retreat_pages|].
  split; [reflexivity|].
  intros p Hp. rewrite process_soup_printed.
  unfold heading_lines. rewrite Hp. reflexivity.
Qed.

Lemma retreating_never_retries_witness :
  exists w',
    for_each (range 0 24)
             (retreat_step (accepting tree_parser) (Calendar.driver Examples.pages))
             (Calendar.start 32) = (Ok tt, w')
    /\ processed (calls w')
       = processed (calls (Calendar.start 32))
         ++ map Str (retreat_pages (Calendar.driver Examples.pages) 24
                                   (browser (Calendar.start 32)))
    /\ length (retreat_pages (Calendar.driver Examples.pages) 24
                             (browser (Calendar.start 32))) = 24
    /\ stdout w'
       = stdout (Calendar.start 32)
         ++ pages_output tree_parser
              (retreat_pages (Calendar.driver Examples.pages) 24
                             (browser (Calendar.start 32)))
    /\ (forall p,
          month_of (tree_parser p) = None ->
          printed (process_soup (tree_parser p))
          = numbered None 1 (omap (emitted_text (tree_parser p)) cell_range)).
Proof.
  apply (retreating_never_retries tree_parser
           (Calendar.driver Examples.pages) (Calendar.start 32)).
  apply calendar_flawless.
Defined.

(** C5 fails as stated: in this run the page visited by the second turn of
    the loop has no month heading; it is extracted once, not twice, its
    shift line is printed, and the run makes its 26 extractions. *)
Lemma retry_counterexample :
  let w' := snd (main (accepting tree_parser) (Calendar.driver Examples.pages)
                      "id" "secret" (Calendar.start 31)) in
  on_page_without_heading (processed (calls w')) = [Str Examples.no_heading]
  /\ lines_without_month (stdout w') = [ShiftLine 1 None "D(7) "]
  /\ length (processed (calls w')) = 26.
Proof. vm_compute. repeat split. Qed.

(** * Further properties of the code *)

(** ** [get_view_event] *)

(** X1. [get_view_event] raises exactly when one of the two fields is
    missing from the document, and the exception is then [AttributeError];
    it returns a pair exactly when both fields are there. *)
Theorem get_view_event_raises_iff (soup : PageElement) :
  (get_view_event soup = Raise AttributeError
   <-> Bs4.find soup "input" [("name", "__VIEWSTATE")] = None
       \/ Bs4.find soup "input" [("name", "__EVENTVALIDATION")] = None)
  /\ ((exists v e, get_view_event soup = Ok (v, e))
      <-> is_Some (Bs4.find soup "input" [("name", "__VIEWSTATE")])
          /\ is_Some (Bs4.find soup "input" [("name", "__EVENTVALIDATION")]))
  /\ get_view_event soup <> Raise TypeError
  /\ get_view_event soup <> Raise TimeoutException
  /\ get_view_event soup <> Raise NoSuchElementException
  /\ get_view_event soup <> Raise WebDriverException
  /\ get_view_event soup <> Raise ParserRejectedMarkup.
Proof.
  unfold get_view_event.
  destruct (Bs4.find soup "input" [("name", "__VIEWSTATE")]) as [tv|];
    destruct (Bs4.find soup "input" [("name", "__EVENTVALIDATION")]) as [te|];
    simpl.
  all: split; [split; [intros H; try discriminate; auto
                      | intros [H|H]; try discriminate; reflexivity]|].
  all: split; [split; [intros (v & e & H); try discriminate;
                       split; eexists; reflexivity
                      | intros [[? H1] [? H2]]; try discriminate;
                        eexists; eexists; reflexivity]|].
  all: repeat split; discriminate.
Qed.

(** ** The lines of one call *)

(** X2. When the month heading is there, the first line printed is the
    heading line with the stripped text of the heading, and every shift
    line that follows carries this same month. *)
Theorem heading_labels_every_line {Html} (html_parser : Html -> result PageElement)
        (r : response Html) (soup h : PageElement) :
  make_soup html_parser r = Ok soup ->
  Bs4.find soup "span" [("id", month_heading_id)] = Some h ->
  process_response_cal html_parser r
  = Ok (MonthHeadingLine (Bs4.get_text_strip h)
        :: numbered (Some (Bs4.get_text_strip h)) 1
                    (omap (emitted_text soup) cell_range)).
Proof.
  intros Hsoup Hfind.
  rewrite (process_response_cal_ok _ _ _ Hsoup), process_soup_printed.
  unfold heading_lines, month_of. rewrite Hfind. reflexivity.
Qed.

Lemma heading_labels_every_line_witness :
  process_response_cal (accepting tree_parser) (Str Examples.january)
  = Ok (MonthHeadingLine (Bs4.get_text_strip (Examples.heading " January 2024 "))
        :: numbered (Some (Bs4.get_text_strip
                             (Examples.heading " January 2024 "))) 1
                    (omap (emitted_text Examples.january) cell_range)).
Proof.
  apply (heading_labels_every_line (accepting tree_parser) (Str Examples.january)
           Examples.january (Examples.heading " January 2024 "));
    reflexivity.
Defined.

Lemma length_omap_le {A C} (f : A -> option C) (l : list A) :
  length (omap f l) <= length l.
Proof.
  induction l as [|a l IH]; [reflexivity|].
  change (omap f (a :: l))
    with (match f a with Some y => y :: omap f l | None => omap f l end).
  destruct (f a); simpl; lia.
Qed.

Lemma fmt_date_two_chars d : d < 100 -> String.length (fmt_date d) = 2.
Proof.
  intros Hd.
  assert (Hall : forallb (fun d => Nat.eqb (String.length (fmt_date d)) 2)
                         (seq 0 100) = true) by (vm_compute; reflexivity).
  rewrite forallb_forall in Hall.
  apply Nat.eqb_eq, Hall, in_seq. lia.
Qed.

(** X3. One call (the parser accepting the markup) returns and prints at
    most 39 shift lines; their day numbers lie
    between 1 and 39, and the day field of each printed line has exactly
    two characters. *)
Theorem at_most_39_shift_lines {Html} (html_parser : Html -> PageElement)
        (r : response Html) :
  exists out,
    process_response_cal (accepting html_parser) r = Ok out
    /\ length (shift_lines out) <= 39
    /\ Forall (fun d => 1 <= d <= 39 /\ String.length (fmt_date d) = 2)
              (shift_dates out).
Proof.
  eexists. split; [apply process_response_cal_ok, make_soup_total|].
  set (soup := html_parser _).
  pose proof (length_omap_le (emitted_text soup) cell_range) as Hle.
  change (length cell_range) with 39 in Hle.
  split.
  - rewrite process_soup_printed, shift_lines_app, shift_lines_heading.
    rewrite shift_lines_numbered, app_nil_l, length_numbered. exact Hle.
  - rewrite shift_dates_process_soup. apply Forall_seq. intros d Hd.
    split; [lia | apply fmt_date_two_chars; lia].
Qed.

Lemma numbered_app month a b : forall from,
  numbered month from (a ++ b)
  = numbered month from a ++ numbered month (from + length a) b.
Proof.
  induction a as [|t a IH]; intros from.
  - simpl. rewrite Nat.add_0_r. reflexivity.
  - rewrite <- app_comm_cons, !numbered_cons, IH. simpl.
    rewrite Nat.add_succ_r. reflexivity.
Qed.

Lemma omap_cons_Some {A C} (f : A -> option C) a l y :
  f a = Some y -> omap f (a :: l) = y :: omap f l.
Proof. intros H. simpl. rewrite H. reflexivity. Qed.

Lemma cell_range_split c :
  c ∈ cell_range ->
  cell_range = seq 1 (c - 1) ++ c :: seq (S c) (39 - c).
Proof.
  intros Hc. apply list_elem_of_In, in_seq in Hc.
  change cell_range with (seq 1 39).
  replace 39 with ((c - 1) + S (39 - c)) at 1 by lia.
  rewrite seq_app. replace (1 + (c - 1)) with c by lia.
  reflexivity.
Qed.

(** X4. The day number printed for a cell is one more than the number of
    scanned cells before it that are present with a non-empty text: absent
    cells and cells without text use up no day number, so the day number
    of a cell is its rank among the cells that print, not its grid
    position. *)
Theorem day_number_is_rank_among_printed (soup : PageElement) (c : nat)
        (t : string) :
  c ∈ cell_range ->
  emitted_text soup c = Some t ->
  printed (process_soup soup)
    !! (length (heading_lines soup)
        + length (omap (emitted_text soup) (seq 1 (c - 1))))
  = Some (ShiftLine (1 + length (omap (emitted_text soup) (seq 1 (c - 1))))
                    (month_of soup) t).
Proof.
  intros Hc Ht.
  rewrite process_soup_printed, (cell_range_split c Hc), omap_app.
  rewrite (omap_cons_Some _ _ _ _ Ht), numbered_app, numbered_cons.
  rewrite app_assoc. apply list_lookup_middle.
  rewrite length_app, length_numbered. reflexivity.
Qed.

Lemma day_number_is_rank_among_printed_witness :
  printed (process_soup Examples.january)
    !! (length (heading_lines Examples.january)
        + length (omap (emitted_text Examples.january) (seq 1 (4 - 1))))
  = Some (ShiftLine
            (1 + length (omap (emitted_text Examples.january) (seq 1 (4 - 1))))
            (month_of Examples.january) "OFF").
Proof.
  apply (day_number_is_rank_among_printed Examples.january 4 "OFF").
  - apply (bool_decide_unpack _). vm_compute. exact I.
  - vm_compute. reflexivity.
Defined.

Example january_cell_4_is_day_2 :
  1 + length (omap (emitted_text Examples.january) (seq 1 (4 - 1))) = 2.
Proof. vm_compute. reflexivity. Qed.

(** X5. A cell that is present but has no [div], or whose [div] has no
    text once stripped, prints nothing and leaves the day counter where it
    is. *)
Theorem cell_without_text_is_skipped (soup cell_content : PageElement)
        (cell : nat) (month : option string) (st : scan_state) :
  find_cell soup cell = Some cell_content ->
  match Bs4.find cell_content "div" [] with
  | Some d => Bs4.get_text_strip d = EmptyString
  | None => True
  end ->
  printed (cell_step soup month st cell) = printed st
  /\ date (cell_step soup month st cell) = date st
  /\ cell_data (cell_step soup month st cell) !! date st = Some EmptyString.
Proof.
  intros Hcell Hdiv.
  assert (Htext : cell_text_of cell_content = EmptyString).
  { unfold cell_text_of.
    destruct (Bs4.find cell_content "div" []) as [d|];
      [rewrite Hdiv|]; reflexivity. }
  unfold cell_step. rewrite Hcell, Htext. simpl.
  split; [reflexivity|]. split; [reflexivity|]. apply lookup_insert_eq.
Qed.

Lemma cell_without_text_is_skipped_witness :
  printed (cell_step Examples.january None
             {| cell_data := ∅; date := 1; printed := [] |} 1) = []
  /\ date (cell_step Examples.january None
             {| cell_data := ∅; date := 1; printed := [] |} 1) = 1
  /\ cell_data (cell_step Examples.january None
             {| cell_data := ∅; date := 1; printed := [] |} 1) !! 1
     = Some EmptyString.
Proof.
  apply (cell_without_text_is_skipped Examples.january
           (Tag "td" [("id", cell_id 1)] []) 1 None
           {| cell_data := ∅; date := 1; printed := [] |}).
  - vm_compute. reflexivity.
  - vm_compute. exact I.
Defined.

(** ** Normalization *)

Lemma replace_paren_app a b :
  PyStr.replace ")" ") " (a +:+ b)
  = PyStr.replace ")" ") " a +:+ PyStr.replace ")" ") " b.
Proof.
  induction a as [|c a IH]; [reflexivity|].
  change (String c a +:+ b) with (String c (a +:+ b)).
  rewrite !replace_paren_cons, IH.
  destruct (Ascii.eqb c ")"); reflexivity.
Qed.

(** X6. Normalization goes through concatenation: the normalized text of
    two texts put together is the two normalized texts put together.  In
    particular a text that ends with [")"] gets a space at its end. *)
Theorem normalize_app (a b : string) :
  normalize (a +:+ b) = normalize a +:+ normalize b
  /\ normalize (a +:+ ")") = normalize a +:+ ") ".
Proof.
  rewrite !normalize_replace, !replace_paren_app. split; reflexivity.
Qed.

Lemma contains_count c s :
  PyStr.contains c s = true -> 0 < count_char c s.
Proof.
  induction s as [|a s IH]; simpl; [discriminate|].
  destruct (Ascii.eqb a c); [lia | exact IH].
Qed.

(** X7. Normalization leaves a text as it is exactly when the text has no
    [")"], and it never makes an empty text non-empty or a non-empty text
    empty: whether a cell prints is decided by its text before
    normalization. *)
Theorem normalize_unchanged_iff (s : string) :
  (normalize s = s <-> PyStr.contains ")" s = false)
  /\ PyStr.truthy (normalize s) = PyStr.truthy s.
Proof.
  split.
  - split.
    + intros H. destruct (PyStr.contains ")" s) eqn:E; [|reflexivity].
      apply contains_count in E.
      apply (f_equal String.length) in H.
      rewrite normalize_replace, length_replace in H. lia.
    + intros H. unfold normalize. rewrite H. reflexivity.
  - rewrite normalize_replace. destruct s as [|a s]; [reflexivity|].
    rewrite replace_paren_cons. destruct (Ascii.eqb a ")"); reflexivity.
Qed.

(** ** The dictionary [cell_data] *)

Section CellData.

Variable soup : PageElement.
Variable month : option string.

Lemma scan_date cells st :
  date (scan soup month cells st)
  = date st + length (omap (emitted_text soup) cells).
Proof. apply scan_spec. Qed.

Lemma emitted_text_Some_inv cell t :
  emitted_text soup cell = Some t ->
  exists cell_content,
    find_cell soup cell = Some cell_content
    /\ cell_text_of cell_content = t
    /\ PyStr.truthy t = true.
Proof.
  unfold emitted_text, text_at.
  destruct (find_cell soup cell) as [cc|]; simpl; [|discriminate].
  destruct (PyStr.truthy (cell_text_of cc)) eqn:E; [|discriminate].
  intros [= <-]. eauto.
Qed.

Lemma cell_step_cell_data_emits st cell t :
  emitted_text soup cell = Some t ->
  cell_data (cell_step soup month st cell)
  = <[date st := t]> (cell_data st).
Proof.
  intros H. destruct (emitted_text_Some_inv _ _ H) as (cc & Hcc & Ht & Htr).
  unfold cell_step. rewrite Hcc, Ht, Htr. reflexivity.
Qed.

Lemma cell_step_cell_data_silent st cell :
  emitted_text soup cell = None ->
  cell_data (cell_step soup month st cell) = cell_data st
  \/ cell_data (cell_step soup month st cell)
     = <[date st := EmptyString]> (cell_data st).
Proof.
  unfold emitted_text, text_at, cell_step.
  destruct (find_cell soup cell) as [cc|]; simpl; [|left; reflexivity].
  destruct (cell_text_of cc) as [|a s] eqn:E; simpl; [|discriminate].
  intros _. right. reflexivity.
Qed.

(** What the loop does to the dictionary: the keys below the counter are
    left alone, each printed text is stored under its day number, the
    keys above the final counter are left alone, and the key of the final
    counter is left alone or holds the empty text. *)
Lemma scan_cell_data cells : forall st,
  (forall d, d < date st ->
     cell_data (scan soup month cells st) !! d = cell_data st !! d)
  /\ (forall i t,
        omap (emitted_text soup) cells !! i = Some t ->
        cell_data (scan soup month cells st) !! (date st + i) = Some t)
  /\ (forall d, date (scan soup month cells st) < d ->
        cell_data (scan soup month cells st) !! d = cell_data st !! d)
  /\ (cell_data (scan soup month cells st) !! date (scan soup month cells st)
      = cell_data st !! date (scan soup month cells st)
      \/ cell_data (scan soup month cells st)
           !! date (scan soup month cells st) = Some EmptyString).
Proof.
  induction cells as [|cell cells IH]; intros st.
  - simpl. repeat split; auto. intros i t H. discriminate.
  - change (scan soup month (cell :: cells) st)
      with (scan soup month cells (cell_step soup month st cell)).
    pose proof (scan_date cells (cell_step soup month st cell)) as Hdate.
    destruct (IH (cell_step soup month st cell)) as (Hlow & Htexts & Hhigh & Hlast).
    destruct (emitted_text soup cell) as [t|] eqn:E.
    + destruct (cell_step_emits soup month st cell t E) as [_ Hd].
      pose proof (cell_step_cell_data_emits st cell t E) as Hcd.
      rewrite Hd in *. rewrite Hcd in *.
      rewrite (omap_cons_Some _ _ _ _ E).
      split; [|split; [|split]].
      * intros d Hlt. rewrite Hlow by lia. apply lookup_insert_ne. lia.
      * intros [|i] t' Hi.
        -- injection Hi as <-. rewrite Nat.add_0_r, Hlow by lia.
           apply lookup_insert_eq.
        -- replace (date st + S i) with (date st + 1 + i) by lia.
           apply Htexts, Hi.
      * intros d Hlt. rewrite Hhigh by lia. apply lookup_insert_ne. lia.
      * destruct Hlast as [Hl|Hl]; [left|right; exact Hl].
        rewrite Hl. apply lookup_insert_ne. lia.
    + destruct (cell_step_silent soup month st cell E) as [_ Hd].
      rewrite Hd in *.
      assert (Hom : omap (emitted_text soup) (cell :: cells)
                    = omap (emitted_text soup) cells).
      { simpl. rewrite E. reflexivity. }
      rewrite Hom.
      destruct (cell_step_cell_data_silent st cell E) as [Hcd|Hcd];
        rewrite Hcd in *.
      * repeat split; assumption.
      * split; [|split; [|split]].
        -- intros d Hlt. rewrite Hlow by lia. apply lookup_insert_ne. lia.
        -- exact Htexts.
        -- intros d Hlt. rewrite Hhigh by lia. apply lookup_insert_ne. lia.
        -- destruct Hlast as [Hl|Hl]; [|right; exact Hl].
           destruct (decide (date st
                             = date (scan soup month cells
                                       (cell_step soup month st cell))))
             as [Heq|Hne].
           ++ right. rewrite Hl, <- Heq. apply lookup_insert_eq.
           ++ left. rewrite Hl. apply lookup_insert_ne. exact Hne.
Qed.

End CellData.

Lemma process_soup_scan soup :
  exists out,
    process_soup soup
    = scan soup (month_of soup) cell_range
           {| cell_data := ∅; date := 1; printed := out |}.
Proof.
  unfold process_soup, month_of.
  destruct (Bs4.find soup "span" [("id", month_heading_id)]) as [h|];
    eexists; reflexivity.
Qed.

Lemma scan_from_empty soup month cells st :
  date st = 1 ->
  cell_data st = ∅ ->
  date (scan soup month cells st)
  = 1 + length (omap (emitted_text soup) cells)
  /\ map (fun d => cell_data (scan soup month cells st) !! d)
         (seq 1 (length (omap (emitted_text soup) cells)))
     = map Some (omap (emitted_text soup) cells)
  /\ dom (cell_data (scan soup month cells st))
     ⊆ set_seq 1 (length (omap (emitted_text soup) cells) + 1)
  /\ default EmptyString
             (cell_data (scan soup month cells st)
                !! date (scan soup month cells st))
     = EmptyString.
Proof.
  intros Hd1 Hempty.
  destruct (scan_cell_data soup month cells st)
    as (Hlow & Htexts & Hhigh & Hlast).
  pose proof (scan_date soup month cells st) as Hdate.
  rewrite Hd1 in Hlow, Htexts, Hdate.
  rewrite Hempty in Hlow, Hhigh, Hlast.
  split; [exact Hdate|]. split; [|split].
  - apply list_eq. intros i. rewrite !list_lookup_fmap.
    destruct (omap (emitted_text soup) cells !! i) as [t|] eqn:E.
    + pose proof (lookup_lt_Some _ _ _ E) as Hlt.
      rewrite (lookup_seq_lt 1 _ i Hlt). simpl. f_equal.
      apply (Htexts i t E).
    + apply lookup_ge_None in E.
      rewrite (proj2 (lookup_ge_None
                 (seq 1 (length (omap (emitted_text soup) cells))) i));
        [reflexivity | rewrite length_seq; exact E].
  - intros d Hd. apply elem_of_dom in Hd. apply elem_of_set_seq.
    destruct (decide (d = 0)) as [->|Hne].
    + rewrite Hlow, lookup_empty in Hd by lia. destruct Hd; discriminate.
    + destruct (decide (date (scan soup month cells st) < d)) as [Hgt|Hle].
      * rewrite (Hhigh d Hgt), lookup_empty in Hd. destruct Hd; discriminate.
      * lia.
  - destruct Hlast as [Hl|Hl]; rewrite Hl; [rewrite lookup_empty|];
      reflexivity.
Qed.

(** X8. When the loop of [process_response_cal] ends, [cell_data] holds
    under the keys 1, 2, ..., k the k texts printed, in the order they were
    printed; it has no key outside 1..k+1; and the counter [date] is k+1,
    a key that is absent or holds the empty text of a cell that did not
    print. *)
Theorem cell_data_holds_printed_texts (soup : PageElement) :
  date (process_soup soup)
  = 1 + length (omap (emitted_text soup) cell_range)
  /\ map (fun d => cell_data (process_soup soup) !! d)
         (seq 1 (length (omap (emitted_text soup) cell_range)))
     = map Some (omap (emitted_text soup) cell_range)
  /\ dom (cell_data (process_soup soup))
     ⊆ set_seq 1 (length (omap (emitted_text soup) cell_range) + 1)
  /\ default EmptyString
             (cell_data (process_soup soup) !! date (process_soup soup))
     = EmptyString.
Proof.
  destruct (process_soup_scan soup) as [out Hps]. rewrite Hps.
  apply scan_from_empty; reflexivity.
Qed.

Example january_cell_data :
  map (fun d => cell_data (process_soup Examples.january) !! d) [0; 1; 2; 3]
  = [None; Some "D(7) N(8) "; Some "OFF"; None].
Proof. vm_compute. reflexivity. Qed.

(** ** Release of the driver *)

Section ReleaseFacts.

Context {B Html : Type}.
Variable html_parser : Html -> result PageElement.
Variable driver : WebDriver B Html.
Variables username password : string.

Lemma driver_op_keeps (c : call Html) (op : B -> B * result unit)
      (w : World B Html) :
  released [c] = false ->
  released (calls (snd (driver_op c op w))) = released (calls w).
Proof.
  intros Hc. destruct w as [b out cs]. rewrite driver_op_result.
  cbn [snd calls]. rewrite released_app, Hc. apply orb_false_r.
Qed.

Lemma page_source_keeps (w : World B Html) :
  released (calls (snd (page_source driver w))) = released (calls w).
Proof.
  destruct w as [b out cs]. rewrite page_source_result.
  cbn [snd calls]. rewrite released_app. apply orb_false_r.
Qed.

Lemma sleep_keeps secs (w : World B Html) :
  released (calls (snd (sleep driver secs w))) = released (calls w).
Proof.
  destruct w as [b out cs]. rewrite sleep_result.
  cbn [snd calls]. rewrite released_app. apply orb_false_r.
Qed.

Lemma process_keeps r (w : World B Html) :
  released (calls (snd (process html_parser r w))) = released (calls w).
Proof.
  destruct w as [b out cs]. unfold process, record.
  destruct (process_response_cal html_parser r);
    cbn [snd calls]; rewrite released_app; apply orb_false_r.
Qed.

Lemma bind_keeps {A C} (c : @M B Html A) (k : A -> @M B Html C) :
  (forall w, released (calls (snd (c w))) = released (calls w)) ->
  (forall v w, released (calls (snd (k v w))) = released (calls w)) ->
  forall w, released (calls (snd (bind c k w))) = released (calls w).
Proof.
  intros Hc Hk w. unfold bind. specialize (Hc w).
  destruct (c w) as [[v|e] w1]; cbn [snd] in *;
    [rewrite Hk|]; exact Hc.
Qed.

Lemma seq_keeps {A} (c : @M B Html unit) (k : @M B Html A) :
  (forall w, released (calls (snd (c w))) = released (calls w)) ->
  (forall w, released (calls (snd (k w))) = released (calls w)) ->
  forall w, released (calls (snd (seq_ c k w))) = released (calls w).
Proof. intros Hc Hk. apply bind_keeps; [exact Hc | intros _; exact Hk]. Qed.

Lemma login_keeps url (w : World B Html) :
  released (calls (snd (login driver username password url w)))
  = released (calls w).
Proof.
  revert w. unfold login, get, wait_presence, send_keys, click.
  repeat (apply seq_keeps;
          [intros w; apply driver_op_keeps; reflexivity|]).
  apply page_source_keeps.
Qed.

Lemma fetch_keeps button_name (w : World B Html) :
  released (calls (snd (fetch_next_page_html driver button_name w)))
  = released (calls w).
Proof.
  revert w. unfold fetch_next_page_html, click.
  apply seq_keeps; [intros w; apply driver_op_keeps; reflexivity|].
  apply seq_keeps; [apply sleep_keeps | apply page_source_keeps].
Qed.

Lemma retreat_step_keeps i (w : World B Html) :
  released (calls (snd (retreat_step html_parser driver i w)))
  = released (calls w).
Proof.
  revert w. unfold retreat_step.
  apply bind_keeps; [apply fetch_keeps|]. intros html.
  apply seq_keeps; [apply process_keeps | apply sleep_keeps].
Qed.

Lemma for_each_keeps (l : list nat) (w : World B Html) :
  released (calls (snd (for_each l (retreat_step html_parser driver) w)))
  = released (calls w).
Proof.
  revert w. induction l as [|i l IH]; intros w; [reflexivity|].
  cbn [for_each]. revert w.
  apply seq_keeps; [apply retreat_step_keeps | exact IH].
Qed.

Lemma bind_outcome {A C} (c : @M B Html A) (k : A -> @M B Html C) :
  (forall w, released (calls (snd (c w))) = released (calls w)) ->
  (forall v w, released (calls w) = false ->
               release_follows_outcome (k v w)) ->
  forall w, released (calls w) = false ->
            release_follows_outcome (bind c k w).
Proof.
  intros Hc Hk w Hw. unfold bind. specialize (Hc w).
  destruct (c w) as [[v|e] w1]; cbn [snd] in Hc.
  - apply Hk. rewrite Hc. exact Hw.
  - unfold release_follows_outcome. cbn [fst snd]. rewrite Hc. exact Hw.
Qed.

Lemma seq_outcome {A} (c : @M B Html unit) (k : @M B Html A) :
  (forall w, released (calls (snd (c w))) = released (calls w)) ->
  (forall w, released (calls w) = false -> release_follows_outcome (k w)) ->
  forall w, released (calls w) = false ->
            release_follows_outcome (seq_ c k w).
Proof. intros Hc Hk. apply bind_outcome; [exact Hc | intros _; exact Hk]. Qed.

Lemma quit_outcome (w : World B Html) :
  release_follows_outcome (quit driver w).
Proof.
  destruct w as [b out cs]. rewrite quit_result.
  unfold release_follows_outcome. cbn [fst snd calls].
  rewrite released_app. apply orb_true_r.
Qed.

Lemma main_outcome (w : World B Html) :
  released (calls w) = false ->
  release_follows_outcome (main html_parser driver username password w).
Proof.
  revert w. unfold main.
  apply bind_outcome; [apply login_keeps|]. intros html.
  apply seq_outcome; [apply process_keeps|].
  apply seq_outcome; [apply sleep_keeps|].
  apply bind_outcome; [apply fetch_keeps|]. intros html'.
  apply seq_outcome; [apply process_keeps|].
  apply seq_outcome; [apply sleep_keeps|].
  apply seq_outcome; [apply for_each_keeps|].
  intros w _. apply quit_outcome.
Qed.

End ReleaseFacts.

(** X9. Whatever the browser does, a run that starts with a driver not yet
    released releases it exactly when it completes: [driver.quit()] has
    been called when [main] returns, and has not when [main] ends with an
    exception, whichever step raised it. *)
Theorem driver_released_iff_run_completes {B Html}
        (html_parser : Html -> result PageElement) (driver : WebDriver B Html)
        (username password : string) (w : World B Html) :
  released (calls w) = false ->
  released (calls (snd (main html_parser driver username password w)))
  = match fst (main html_parser driver username password w) with
    | Ok _ => true
    | Raise _ => false
    end.
Proof. intros Hw. apply main_outcome, Hw. Qed.

Lemma driver_released_iff_run_completes_witness :
  released (calls (snd (main (accepting tree_parser)
     (faulty_calendar no_fault no_previous_on_page_0 Examples.pages)
     "id" "secret" (Calendar.start 5))))
  = match fst (main (accepting tree_parser)
     (faulty_calendar no_fault no_previous_on_page_0 Examples.pages)
     "id" "secret" (Calendar.start 5)) with
    | Ok _ => true
    | Raise _ => false
    end.
Proof.
  apply (driver_released_iff_run_completes (accepting tree_parser)
           (faulty_calendar no_fault no_previous_on_page_0 Examples.pages)
           "id" "secret" (Calendar.start 5)).
  reflexivity.
Defined.

Example run_from_page_5_raises :
  fst (main (accepting tree_parser)
         (faulty_calendar no_fault no_previous_on_page_0 Examples.pages)
         "id" "secret" (Calendar.start 5))
  = Raise NoSuchElementException.
Proof. vm_compute. reflexivity. Qed.

(** ** Navigation *)

Lemma clicks_app {Html} (a b : list (call Html)) :
  clicks (a ++ b) = clicks a ++ clicks b.
Proof. unfold clicks. apply omap_app. Qed.

Lemma typed_app {Html} (a b : list (call Html)) :
  typed (a ++ b) = typed a ++ typed b.
Proof. unfold typed. apply omap_app. Qed.

Lemma slept_app {Html} (a b : list (call Html)) :
  slept (a ++ b) = slept a + slept b.
Proof.
  induction a as [|c a IH]; [reflexivity|].
  simpl. destruct c; simpl; rewrite ?IH; lia.
Qed.

Section NavigationFacts.

Context {B Html : Type}.
Variable driver : WebDriver B Html.
Variables username password : string.

Lemma clicks_retreat_trace n : forall b,
  clicks (retreat_trace driver n b) = replicate n (ID, lnkPreviousMonth).
Proof.
  induction n as [|n IH]; intros b; [reflexivity|].
  cbn [retreat_trace]. rewrite clicks_app, IH. reflexivity.
Qed.

Lemma typed_retreat_trace n : forall b,
  typed (retreat_trace driver n b) = [].
Proof.
  induction n as [|n IH]; intros b; [reflexivity|].
  cbn [retreat_trace]. rewrite typed_app, IH. reflexivity.
Qed.

Lemma slept_retreat_trace n : forall b,
  slept (retreat_trace driver n b) = 3 * n.
Proof.
  induction n as [|n IH]; intros b; [reflexivity|].
  cbn [retreat_trace]. rewrite slept_app, IH. simpl. lia.
Qed.

Lemma clicks_run_trace b :
  clicks (run_trace driver username password b)
  = (NAME, btnLogin) :: (ID, lnkNextMonth)
    :: replicate 24 (ID, lnkPreviousMonth).
Proof.
  unfold run_trace. rewrite !clicks_app, clicks_retreat_trace.
  reflexivity.
Qed.

Lemma typed_run_trace b :
  typed (run_trace driver username password b) = [username; password].
Proof.
  unfold run_trace. rewrite !typed_app, typed_retreat_trace. reflexivity.
Qed.

Lemma slept_run_trace b :
  slept (run_trace driver username password b) = 76.
Proof.
  unfold run_trace. rewrite !slept_app, slept_retreat_trace. reflexivity.
Qed.

End NavigationFacts.

(** X10. On a flawless channel a run types the user name, then the
    password, once each; it clicks the login button, then the next-month
    link exactly once, then the previous-month link exactly 24 times, and
    nothing else. *)
Theorem run_clicks_next_once_previous_24 {B Html}
        (html_parser : Html -> PageElement) (driver : WebDriver B Html)
        (username password : string) (w : World B Html) :
  flawless driver ->
  clicks (calls (snd (main (accepting html_parser) driver username password w)))
  = clicks (calls w)
    ++ (NAME, btnLogin) :: (ID, lnkNextMonth)
       :: replicate 24 (ID, lnkPreviousMonth)
  /\ typed (calls (snd (main (accepting html_parser) driver username password w)))
     = typed (calls w) ++ [username; password].
Proof.
  intros Hf. destruct w as [b out cs].
  rewrite (main_ok html_parser driver username password Hf).
  cbn [snd calls].
  rewrite clicks_app, typed_app, clicks_run_trace, typed_run_trace.
  split; reflexivity.
Qed.

Lemma run_clicks_next_once_previous_24_witness :
  clicks (calls (snd (main (accepting tree_parser) (Calendar.driver Examples.pages)
                           "id" "secret" (Calendar.start 31))))
  = clicks (calls (Calendar.start 31))
    ++ (NAME, btnLogin) :: (ID, lnkNextMonth)
       :: replicate 24 (ID, lnkPreviousMonth)
  /\ typed (calls (snd (main (accepting tree_parser) (Calendar.driver Examples.pages)
                             "id" "secret" (Calendar.start 31))))
     = typed (calls (Calendar.start 31)) ++ ["id"; "secret"].
Proof.
  apply (run_clicks_next_once_previous_24 tree_parser
           (Calendar.driver Examples.pages) "id" "secret"
           (Calendar.start 31)).
  repeat split.
Defined.

(** X11. On a flawless channel a run spends 76 seconds in [time.sleep]:
    one second after the first page, one and two around the page of the
    following month, and three for each of the 24 months before. *)
Theorem run_sleeps_76_seconds {B Html}
        (html_parser : Html -> PageElement) (driver : WebDriver B Html)
        (username password : string) (w : World B Html) :
  flawless driver ->
  slept (calls (snd (main (accepting html_parser) driver username password w)))
  = slept (calls w) + 76.
Proof.
  intros Hf. destruct w as [b out cs].
  rewrite (main_ok html_parser driver username password Hf).
  cbn [snd calls]. rewrite slept_app, slept_run_trace. reflexivity.
Qed.

Lemma run_sleeps_76_seconds_witness :
  slept (calls (snd (main (accepting tree_parser) (Calendar.driver Examples.pages)
                          "id" "secret" (Calendar.start 31))))
  = slept (calls (Calendar.start 31)) + 76.
Proof.
  apply (run_sleeps_76_seconds tree_parser (Calendar.driver Examples.pages)
           "id" "secret" (Calendar.start 31)).
  repeat split.
Defined.

(** X12. On a flawless channel whose previous-month link undoes the
    next-month link, the first turn of the loop comes back to the page the
    run started from: the current month is extracted twice, as the first
    and as the third of the 26 extractions. *)
Theorem current_month_extracted_twice {B Html}
        (html_parser : Html -> PageElement) (driver : WebDriver B Html)
        (username password : string) (w : World B Html) :
  flawless driver ->
  previous_undoes_next driver ->
  exists p q rest,
    processed (calls (snd (main (accepting html_parser) driver username password w)))
    = processed (calls w) ++ [Str p; Str q; Str p] ++ map Str rest
    /\ length rest = 23
    /\ stdout (snd (main (accepting html_parser) driver username password w))
       = stdout w
         ++ printed (process_soup (html_parser p))
         ++ printed (process_soup (html_parser q))
         ++ printed (process_soup (html_parser p))
         ++ pages_output html_parser rest.
Proof.
  intros Hf Hundo. destruct w as [b out cs].
  assert (Hback :
    drv_page_source driver
      (after_click driver lnkPreviousMonth
         (drv_elapse driver 2 (at_next_month driver username password b)))
    = drv_page_source driver (after_login driver username password b)).
  { unfold at_next_month, after_click. apply Hundo. }
  rewrite (main_ok html_parser driver username password Hf).
  cbn [snd calls stdout].
  rewrite processed_app, processed_run_trace.
  unfold visited_pages.
  change (retreat_pages driver 24 ?b0)
    with (drv_page_source driver (after_click driver lnkPreviousMonth b0)
          :: retreat_pages driver 23
               (drv_elapse driver 2
                  (after_click driver lnkPreviousMonth b0))).
  rewrite Hback.
  eexists _, _, _. split; [reflexivity|].
  split; [apply (length_retreat_pages driver)|].
  rewrite !pages_output_cons. reflexivity.
Qed.

Lemma calendar_previous_undoes_next pages :
  previous_undoes_next (Calendar.driver pages).
Proof.
  intros n. cbn. f_equal. lia.
Defined.

Lemma current_month_extracted_twice_witness :
  exists p q rest,
    processed (calls (snd (main (accepting tree_parser) (Calendar.driver Examples.pages)
                                "id" "secret" (Calendar.start 31))))
    = processed (calls (Calendar.start 31))
      ++ [Str p; Str q; Str p] ++ map Str rest
    /\ length rest = 23
    /\ stdout (snd (main (accepting tree_parser) (Calendar.driver Examples.pages)
                         "id" "secret" (Calendar.start 31)))
       = stdout (Calendar.start 31)
         ++ printed (process_soup (tree_parser p))
         ++ printed (process_soup (tree_parser q))
         ++ printed (process_soup (tree_parser p))
         ++ pages_output tree_parser rest.
Proof.
  apply (current_month_extracted_twice tree_parser
           (Calendar.driver Examples.pages) "id" "secret"
           (Calendar.start 31)).
  - repeat split.
  - apply calendar_previous_undoes_next.
Defined.

Example calendar_run_first_lines :
  take 6 (map render (stdout (snd
    (main (accepting tree_parser) (Calendar.driver Examples.pages) "id" "secret"
          (Calendar.start 31)))))
  = ["Month Heading: M31"; "01 M31:  Shift: D";
     "Month Heading: M32"; "01 M32:  Shift: D";
     "Month Heading: M31"; "01 M31:  Shift: D"].
Proof. vm_compute. reflexivity. Qed.

(** ** Failures of the channel *)

(** X13. When the previous-month link cannot be clicked at some turn of
    the loop, the loop stops there with the exception of the click: the
    page is not read, nothing is extracted or printed for this turn, and
    the turns that remain are not run. *)
Theorem failed_previous_click_stops_loop {B Html}
        (html_parser : Html -> result PageElement) (driver : WebDriver B Html)
        (e : exn) (i : nat) (l : list nat) (w : World B Html) :
  snd (drv_click driver ID lnkPreviousMonth (browser w)) = Raise e ->
  exists w',
    for_each (i :: l) (retreat_step html_parser driver) w = (Raise e, w')
    /\ calls w' = calls w ++ [CallClick ID lnkPreviousMonth]
    /\ stdout w' = stdout w.
Proof.
  intros Hclick. destruct w as [b out cs]. eexists. split.
  - cbn [for_each]. apply seq_raise. unfold retreat_step.
    apply bind_raise. unfold fetch_next_page_html, click.
    apply seq_raise, driver_op_raise. exact Hclick.
  - split; reflexivity.
Qed.

Lemma failed_previous_click_stops_loop_witness :
  exists w',
    for_each (0 :: range 1 24)
      (retreat_step (accepting tree_parser)
         (faulty_calendar no_fault no_previous_on_page_0 Examples.pages))
      (Calendar.start 0)
    = (Raise NoSuchElementException, w')
    /\ calls w' = calls (Calendar.start 0) ++ [CallClick ID lnkPreviousMonth]
    /\ stdout w' = stdout (Calendar.start 0).
Proof.
  apply (failed_previous_click_stops_loop (accepting tree_parser)
           (faulty_calendar no_fault no_previous_on_page_0 Examples.pages)
           NoSuchElementException 0 (range 1 24) (Calendar.start 0)).
  reflexivity.
Defined.

(** X14. When the page opens but the personnel-id field never shows, the
    run ends with the exception of the wait after two calls, [get] and the
    wait: nothing is typed, so the credentials are not sent, and nothing is
    printed. *)
Theorem missing_login_field_types_nothing {B Html}
        (html_parser : Html -> result PageElement) (driver : WebDriver B Html)
        (username password : string) (e : exn) (w : World B Html) :
  (forall b, snd (drv_get driver login_url b) = Ok tt) ->
  (forall b, snd (drv_wait driver NAME txtPersonnelId b) = Raise e) ->
  exists w',
    main html_parser driver username password w = (Raise e, w')
    /\ calls w' = calls w ++ [CallGet login_url; CallWait NAME txtPersonnelId]
    /\ typed (calls w') = typed (calls w)
    /\ stdout w' = stdout w.
Proof.
  intros Hget Hwait. destruct w as [b out cs]. eexists. split.
  - unfold main. apply bind_raise. unfold login, get, wait_presence.
    erewrite seq_ok by (apply driver_op_ok, Hget).
    apply seq_raise, driver_op_raise, Hwait.
  - cbn [calls stdout]. rewrite <- !app_assoc.
    split; [reflexivity|]. split; [|reflexivity].
    rewrite typed_app. apply app_nil_r.
Qed.

Lemma missing_login_field_types_nothing_witness :
  exists w',
    main (accepting tree_parser) (faulty_calendar no_login_field no_fault Examples.pages)
         "id" "secret" (Calendar.start 31)
    = (Raise TimeoutException, w')
    /\ calls w' = calls (Calendar.start 31)
                  ++ [CallGet login_url; CallWait NAME txtPersonnelId]
    /\ typed (calls w') = typed (calls (Calendar.start 31))
    /\ stdout w' = stdout (Calendar.start 31).
Proof.
  apply (missing_login_field_types_nothing (accepting tree_parser)
           (faulty_calendar no_login_field no_fault Examples.pages)
           "id" "secret" TimeoutException (Calendar.start 31)).
  - intros b. reflexivity.
  - intros b. reflexivity.
Defined.

(** ** A page without cells *)

Lemma omap_all_None {A C} (f : A -> option C) (l : list A) :
  (forall a, a ∈ l -> f a = None) -> omap f l = [].
Proof.
  induction l as [|a l IH]; intros H; [reflexivity|].
  simpl. rewrite (H a) by apply list_elem_of_here.
  apply IH. intros a' Ha'. apply H, list_elem_of_further, Ha'.
Qed.

Lemma scan_absent_cells soup month cells : forall st,
  (forall c, c ∈ cells -> find_cell soup c = None) ->
  scan soup month cells st = st.
Proof.
  induction cells as [|c cells IH]; intros st Hc; [reflexivity|].
  change (scan soup month (c :: cells) st)
    with (scan soup month cells (cell_step soup month st c)).
  unfold cell_step at 1. rewrite (Hc c) by apply list_elem_of_here.
  apply IH. intros c' Hc'. apply Hc, list_elem_of_further, Hc'.
Qed.

(** X15. A page that has none of the scanned cells prints its heading
    line and nothing else; when it has no heading either, as the document
    of an empty input, the call prints nothing and still returns. *)
Theorem page_without_cells_prints_heading_only {Html}
        (html_parser : Html -> result PageElement) (r : response Html)
        (soup : PageElement) :
  make_soup html_parser r = Ok soup ->
  (forall c, c ∈ cell_range -> find_cell soup c = None) ->
  process_response_cal html_parser r = Ok (heading_lines soup)
  /\ date (process_soup soup) = 1
  /\ cell_data (process_soup soup) = ∅.
Proof.
  intros Hsoup Hnone.
  destruct (process_soup_scan soup) as [out Hps].
  rewrite (scan_absent_cells soup _ cell_range _ Hnone) in Hps.
  split; [|rewrite Hps; split; reflexivity].
  rewrite (process_response_cal_ok _ _ _ Hsoup), process_soup_printed.
  rewrite omap_all_None.
  - f_equal. apply app_nil_r.
  - intros c Hc. unfold emitted_text, text_at.
    rewrite (Hnone c Hc). reflexivity.
Qed.

Lemma page_without_cells_prints_heading_only_witness :
  process_response_cal (accepting tree_parser) (Str Examples.empty_document)
  = Ok (heading_lines Examples.empty_document)
  /\ date (process_soup Examples.empty_document) = 1
  /\ cell_data (process_soup Examples.empty_document) = ∅.
Proof.
  apply (page_without_cells_prints_heading_only (accepting tree_parser)
           (Str Examples.empty_document) Examples.empty_document).
  - reflexivity.
  - intros c _. reflexivity.
Defined.

Example empty_document_prints_nothing :
  process_response_cal (accepting tree_parser) (Str Examples.empty_document) = Ok [].
Proof. vm_compute. reflexivity. Qed.
